(** * ai-therapist: session store, AI client and chat route

    A shallow embedding of [src/lib/storage.ts], [src/lib/gemini.ts],
    [src/app/api/chat/message/route.ts] and the admin session-detail route,
    followed by the properties of the specification that concern them.
    The session-creation route and the admin list and bulk-delete routes are
    embedded as well, with further properties read off the code.

    Conventions of the embedding.
    - The sessions folder is a finite map from file names (relative to
      [STORAGE_DIR]) to file contents.  A file either holds the
      [JSON.stringify] image of a [ChatSession] or text that [JSON.parse]
      rejects.
    - ISO time stamps are represented by the instant they denote, in
      milliseconds since the epoch.
    - JavaScript code runs in a small monad that threads the world (folder,
      observation counter, call log) and carries exceptions; [try]/[catch]
      is [try_catch].  Effects performed before a [throw] persist.
    - The wall clock, [Math.random], the Gemini service and [JSON.parse] on
      provider text are oracles collected in [Env]; every theorem holds for
      all of them.  The two prompt templates are fields of [Env] as well.
    - The failures of the outside world that are modelled are the ones the
      code handles: a missing folder or file, a folder that cannot be
      enumerated, file content that does not parse, a failing provider call
      and provider text that does not parse.  Writing into an existing
      folder succeeds; where a property concerns a failing write, the
      handler is taken with the two calls of its evaluation step as
      parameters ([POST_with], equal to [POST] at the functions of the
      code), and properties of results are stated for calls that return.
    - A handler runs from start to end without interleaving with another
      request; request fields are absent or strings; [console] output is
      left out; a session file is named [sessionId + ".json"] (no path
      normalisation). *)

From Stdlib Require Import ZArith List String Ascii Lia Permutation Sorted.
From stdpp Require Import base option list strings gmap fin_maps pretty.

Local Open Scope string_scope.
Local Set Warnings "-clear-no-such-hyp".

(** ** Data model ([storage.ts], lines 23-45) *)

Inductive Role := user | assistant.

Record ChatMessage := {
  role : Role;
  content : string;
  timestamp : Z
}.

(** What [evaluateMentalHealth] parses out of the provider's answer. No field
    is validated by the code, so the risk level is kept as a string. *)
Record Evaluation := {
  wellnessScore : Z;
  emotionalState : string;
  keyConcerns : list string;
  riskLevel : string;
  recommendations : list string;
  summary : string
}.

(** The [evaluation] field of a session: [{...evaluation, evaluatedAt}]. *)
Record StoredEvaluation := {
  assessment : Evaluation;
  evaluatedAt : Z
}.

Record ChatSession := {
  id : string;
  messages : list ChatMessage;
  evaluation : option StoredEvaluation;
  createdAt : Z;
  updatedAt : Z
}.

Definition push_message (s : ChatSession) (m : ChatMessage) : ChatSession :=
  {| id := id s; messages := messages s ++ [m]; evaluation := evaluation s;
     createdAt := createdAt s; updatedAt := updatedAt s |}.

Definition set_updatedAt (s : ChatSession) (t : Z) : ChatSession :=
  {| id := id s; messages := messages s; evaluation := evaluation s;
     createdAt := createdAt s; updatedAt := t |}.

Definition set_evaluation (s : ChatSession) (e : option StoredEvaluation) : ChatSession :=
  {| id := id s; messages := messages s; evaluation := e;
     createdAt := createdAt s; updatedAt := updatedAt s |}.

(** ** The file system *)

Inductive file_data :=
  | Json (s : ChatSession)
  | Garbage (raw : string).

(** The sessions folder: absent, or present with its files.  [listable]
    tells whether [readdirSync] may enumerate it. *)
Inductive Disk :=
  | NoDir
  | Dir (listable : bool) (files : gmap string file_data).

Definition files_of (d : Disk) : gmap string file_data :=
  match d with
  | NoDir => ∅
  | Dir _ fs => fs
  end.

Inductive js_error := Error (message : string).

Definition message_of (e : js_error) : string :=
  match e with Error m => m end.

(** Calls into the AI client, recorded in the order they are made. *)
Inductive Event :=
  | CallGenerateTherapyResponse (history : list (Role * string))
  | CallEvaluateMentalHealth (conversation : string).

Record World := {
  disk : Disk;
  tick : nat;
  trace : list Event
}.

Record Env := {
  Date_now : nat -> Z;
  Math_random : nat -> string;
  generateContent : nat -> string -> js_error + string;
  JSON_parse_text : string -> option Evaluation;
  systemPrompt : string;
  evaluationPromptHead : string;
  evaluationPromptTail : string
}.

(** ** The effect monad *)

Inductive completion (A : Type) :=
  | Return (a : A)
  | Throw (e : js_error).
Arguments Return {A} a.
Arguments Throw {A} e.

Definition Eff (A : Type) : Type := World -> completion A * World.

Global Instance Eff_ret : MRet Eff := fun A a w => (Return a, w).

Global Instance Eff_bind : MBind Eff := fun A B f m w =>
  match m w with
  | (Return a, w') => f a w'
  | (Throw e, w') => (Throw e, w')
  end.

Definition throw {A} (e : js_error) : Eff A := fun w => (Throw e, w).

Definition try_catch {A} (body : Eff A) (handler : js_error -> Eff A) : Eff A :=
  fun w =>
    match body w with
    | (Return a, w') => (Return a, w')
    | (Throw e, w') => handler e w'
    end.

Definition get_disk : Eff Disk := fun w => (Return (disk w), w).

Definition put_disk (d : Disk) : Eff unit := fun w =>
  (Return tt, {| disk := d; tick := tick w; trace := trace w |}).

Definition observe {A} (oracle : nat -> A) : Eff A := fun w =>
  (Return (oracle (tick w)),
   {| disk := disk w; tick := S (tick w); trace := trace w |}).

Definition log_call (ev : Event) : Eff unit := fun w =>
  (Return tt, {| disk := disk w; tick := tick w; trace := trace w ++ [ev] |}).

(** ** [fs] primitives *)

Definition existsSync_dir : Eff bool :=
  d ← get_disk;
  mret (match d with NoDir => false | Dir _ _ => true end).

Definition mkdirSync : Eff unit :=
  d ← get_disk;
  match d with
  | NoDir => put_disk (Dir true ∅)
  | Dir _ _ => mret tt
  end.

Definition existsSync (p : string) : Eff bool :=
  d ← get_disk;
  mret (bool_decide (is_Some (files_of d !! p))).

Definition readFileSync (p : string) : Eff file_data :=
  d ← get_disk;
  match files_of d !! p with
  | Some data => mret data
  | None => throw (Error "ENOENT: no such file or directory")
  end.

Definition writeFileSync (p : string) (data : file_data) : Eff unit :=
  d ← get_disk;
  match d with
  | NoDir => throw (Error "ENOENT: no such file or directory")
  | Dir l fs => put_disk (Dir l (<[p := data]> fs))
  end.

Definition unlinkSync (p : string) : Eff unit :=
  d ← get_disk;
  match d with
  | NoDir => throw (Error "ENOENT: no such file or directory")
  | Dir l fs =>
      match fs !! p with
      | Some _ => put_disk (Dir l (delete p fs))
      | None => throw (Error "ENOENT: no such file or directory")
      end
  end.

Definition readdirSync : Eff (list string) :=
  d ← get_disk;
  match d with
  | NoDir => throw (Error "ENOENT: no such file or directory")
  | Dir false _ => throw (Error "EACCES: permission denied")
  | Dir true fs => mret (elements (dom fs))
  end.

Definition JSON_stringify (s : ChatSession) : file_data := Json s.

Definition JSON_parse (data : file_data) : Eff ChatSession :=
  match data with
  | Json s => mret s
  | Garbage _ => throw (Error "SyntaxError: Unexpected token")
  end.

(** [String.prototype.endsWith]. *)
Definition endsWith (s suffix : string) : bool :=
  let n := String.length s in
  let k := String.length suffix in
  (k <=? n)%nat && String.eqb (substring (n - k) k s) suffix.
Arguments endsWith : simpl never.

(** [Array.prototype.sort] with a comparator: a stable sort that puts [a]
    before [b] when [cmp a b <= 0] and they are met in that order. *)
Fixpoint insert_sorted {A} (cmp : A -> A -> Z) (x : A) (l : list A) : list A :=
  match l with
  | [] => [x]
  | y :: r => if (cmp x y <=? 0)%Z then x :: l else y :: insert_sorted cmp x r
  end.

Definition Array_sort {A} (cmp : A -> A -> Z) (l : list A) : list A :=
  foldr (insert_sorted cmp) [] l.

(** ** [storage.ts] *)

Module Storage.

Definition initializeStorage : Eff unit :=
  present ← existsSync_dir;
  if negb present then mkdirSync else mret tt.

Definition getSessionPath (sessionId : string) : string :=
  sessionId +:+ ".json".

Section WithEnv.
Context (E : Env).

(** [new Date().toISOString()] and [Date.now()] both read the wall clock. *)
Definition new_Date_toISOString : Eff Z := observe (Date_now E).

(** [Math.random().toString(36).substring(2, 9)]. *)
Definition random_suffix : Eff string := observe (Math_random E).

Definition createChatSession : Eff string :=
  initializeStorage;;
  now ← observe (Date_now E);
  rnd ← random_suffix;
  let id := "session_" +:+ pretty now +:+ "_" +:+ rnd in
  created ← new_Date_toISOString;
  updated ← new_Date_toISOString;
  let session := {| id := id; messages := []; evaluation := None;
                    createdAt := created; updatedAt := updated |} in
  writeFileSync (getSessionPath id) (JSON_stringify session);;
  mret id.

Definition getChatSession (id : string) : Eff (option ChatSession) :=
  initializeStorage;;
  let filePath := getSessionPath id in
  present ← existsSync filePath;
  if negb present then mret None
  else
    try_catch
      (data ← readFileSync filePath;
       s ← JSON_parse data;
       mret (Some s))
      (fun error => mret None).

Definition addMessage (sessionId : string) (role : Role) (content : string) : Eff unit :=
  session ← getChatSession sessionId;
  match session with
  | None => mret tt
  | Some session =>
      stamp ← new_Date_toISOString;
      let session :=
        push_message session
          {| role := role; content := content; timestamp := stamp |} in
      updated ← new_Date_toISOString;
      let session := set_updatedAt session updated in
      writeFileSync (getSessionPath sessionId) (JSON_stringify session)
  end.

Definition updateEvaluation (sessionId : string) (evaluation : option StoredEvaluation) : Eff unit :=
  session ← getChatSession sessionId;
  match session with
  | None => mret tt
  | Some session =>
      let session := set_evaluation session evaluation in
      writeFileSync (getSessionPath sessionId) (JSON_stringify session)
  end.

Definition compareUpdated (a b : ChatSession) : Z :=
  (updatedAt b - updatedAt a)%Z.

(** The [for (const file of files)] loop of [getAllSessions]. *)
Fixpoint readSessions (files : list string) (sessions : list ChatSession)
  : Eff (list ChatSession) :=
  match files with
  | [] => mret sessions
  | file :: rest =>
      if endsWith file ".json" then
        data ← readFileSync file;
        s ← JSON_parse data;
        readSessions rest (sessions ++ [s])
      else readSessions rest sessions
  end.

Definition getAllSessions : Eff (list ChatSession) :=
  initializeStorage;;
  try_catch
    (files ← readdirSync;
     sessions ← readSessions files [];
     mret (Array_sort compareUpdated sessions))
    (fun error => mret []).

Definition deleteSession (sessionId : string) : Eff bool :=
  let filePath := getSessionPath sessionId in
  present ← existsSync filePath;
  if (present : bool) then (unlinkSync filePath;; mret true : Eff bool)
  else mret false.

End WithEnv.

(** The object [getSessionStats] returns. *)
Record SessionStats := {
  total : nat;
  withEvaluations : nat;
  highRisk : nat;
  mediumRisk : nat;
  lowRisk : nat
}.

(** [s.evaluation] used as a condition: an object is truthy, [undefined] is
    not. *)
Definition has_evaluation (s : ChatSession) : bool :=
  match evaluation s with Some _ => true | None => false end.

(** [s.evaluation?.riskLevel === level]. *)
Definition risk_is (level : string) (s : ChatSession) : bool :=
  match evaluation s with
  | Some ev => String.eqb (riskLevel (assessment ev)) level
  | None => false
  end.

Definition getSessionStats : Eff SessionStats :=
  sessions ← getAllSessions;
  mret {| total := length sessions;
          withEvaluations := length (List.filter has_evaluation sessions);
          highRisk := length (List.filter (risk_is "high") sessions);
          mediumRisk := length (List.filter (risk_is "medium") sessions);
          lowRisk := length (List.filter (risk_is "low") sessions) |}.

End Storage.

(** ** [gemini.ts] *)

Definition LF : string := String (ascii_of_nat 10) "".

(** [Array.prototype.join]. *)
Fixpoint join (sep : string) (l : list string) : string :=
  match l with
  | [] => ""
  | [x] => x
  | x :: r => x +:+ sep +:+ join sep r
  end.

(** The longest prefix of [s] that ends with a closing brace. *)
Fixpoint upto_last_brace (s : string) : option string :=
  match s with
  | EmptyString => None
  | String c r =>
      match upto_last_brace r with
      | Some p => Some (String c p)
      | None => if Ascii.eqb c "}" then Some (String c "") else None
      end
  end.

(** [text.match(/\{[\s\S]*\}/)]: the leftmost opening brace that has a
    closing brace after it, up to the last closing brace (the star is
    greedy); [None] is JavaScript's [null]. *)
Fixpoint jsonMatch (text : string) : option string :=
  match text with
  | EmptyString => None
  | String c r =>
      if Ascii.eqb c "{" then
        match upto_last_brace r with
        | Some p => Some (String c p)
        | None => jsonMatch r
        end
      else jsonMatch r
  end.

(** The line each message contributes to a transcript. *)
Definition render_line (role : Role) (content : string) : string :=
  (match role with user => "User" | assistant => "Therapist" end)
    +:+ ": " +:+ content.

Module Gemini.
Section WithEnv.
Context (E : Env).

(** [model.generateContent(prompt)] followed by [response.text()]. *)
Definition model_generateContent (prompt : string) : Eff string :=
  r ← observe (fun n => generateContent E n prompt);
  match r with
  | inl e => throw e
  | inr text => mret text
  end.

(** The [prompt] constant of [generateTherapyResponse]. *)
Definition therapyPrompt (messages : list (Role * string)) : string :=
  let conversationHistory :=
    join LF (map (fun msg => render_line (fst msg) (snd msg)) messages) in
  systemPrompt E +:+ LF +:+ LF +:+ "Conversation:" +:+ LF
    +:+ conversationHistory +:+ LF +:+ LF +:+ "Therapist:".

Definition generateTherapyResponse (messages : list (Role * string)) : Eff string :=
  log_call (CallGenerateTherapyResponse messages);;
  let prompt := therapyPrompt messages in
  try_catch
    (model_generateContent prompt)
    (fun error =>
       throw (Error ("Failed to generate response: " +:+ message_of error))).

Definition JSON_parse (text : string) : Eff Evaluation :=
  match JSON_parse_text E text with
  | Some v => mret v
  | None => throw (Error "SyntaxError: Unexpected token")
  end.

(** The [evaluationPrompt] template with the transcript spliced in. *)
Definition evaluationPrompt (conversation : string) : string :=
  evaluationPromptHead E +:+ conversation +:+ evaluationPromptTail E.

Definition evaluateMentalHealth (conversation : string) : Eff Evaluation :=
  log_call (CallEvaluateMentalHealth conversation);;
  try_catch
    (text ← model_generateContent (evaluationPrompt conversation);
     match jsonMatch text with
     | None => throw (Error "Invalid evaluation format")
     | Some jsonMatch0 => JSON_parse jsonMatch0
     end)
    (fun error => throw (Error "Failed to evaluate conversation")).

End WithEnv.
End Gemini.

(** ** The route handlers *)

Record RequestBody := {
  sessionId : option string;
  message : option string
}.

(** [request.json()] either throws or yields the body. *)
Inductive Request :=
  | MalformedBody
  | JsonBody (body : RequestBody).

Inductive ResponseBody :=
  | ResponseField (response : string)
  | SessionField (session : ChatSession)
  | ErrorField (error : string).

Record Response := {
  payload : ResponseBody;
  status : Z
}.

Definition NextResponse_json (payload : ResponseBody) (status : Z) : Response :=
  {| payload := payload; status := status |}.

(** JavaScript truthiness of a field that is absent or a string. *)
Definition truthy (field : option string) : bool :=
  match field with
  | Some s => negb (String.eqb s "")
  | None => false
  end.

Definition field_text (field : option string) : string :=
  match field with Some s => s | None => "" end.

Definition request_json (request : Request) : Eff RequestBody :=
  match request with
  | MalformedBody => throw (Error "SyntaxError: Unexpected end of JSON input")
  | JsonBody body => mret body
  end.

Module ChatMessageRoute.
Section WithEnv.
Context (E : Env).

(** [messages.map(msg => `${...}: ${msg.content}`).join('\n')]. *)
Definition transcript (messages : list ChatMessage) : string :=
  join LF (map (fun msg => render_line (role msg) (content msg)) messages).

(** [messages.map(msg => ({ role: msg.role, content: msg.content }))]. *)
Definition history (messages : list ChatMessage) : list (Role * string) :=
  map (fun msg => (role msg, content msg)) messages.

(** Lines 92-111 of the handler: the periodic evaluation. *)
Definition evaluateEveryFifth (sessionId : string) : Eff unit :=
  finalSession ← Storage.getChatSession sessionId;
  match finalSession with
  | Some finalSession =>
      let n := length (messages finalSession) in
      if (5 <=? n)%nat && (n mod 5 =? 0)%nat then
        let conversationText := transcript (messages finalSession) in
        try_catch
          (evaluation ← Gemini.evaluateMentalHealth E conversationText;
           stamp ← Storage.new_Date_toISOString E;
           Storage.updateEvaluation sessionId
             (Some {| assessment := evaluation; evaluatedAt := stamp |}))
          (fun error => mret tt)
      else mret tt
  | None => mret tt
  end.

Definition POST (request : Request) : Eff Response :=
  try_catch
    (body ← request_json request;
     if negb (truthy (sessionId body)) || negb (truthy (message body)) then
       mret (NextResponse_json (ErrorField "Session ID and message are required") 400)
     else
       let sessionId := field_text (sessionId body) in
       let message := field_text (message body) in
       session ← Storage.getChatSession sessionId;
       match session with
       | None => mret (NextResponse_json (ErrorField "Session not found") 404)
       | Some _ =>
           Storage.addMessage E sessionId user message;;
           updatedSession ← Storage.getChatSession sessionId;
           match updatedSession with
           | None => mret (NextResponse_json (ErrorField "Session not found") 404)
           | Some updatedSession =>
               let messages := history (messages updatedSession) in
               try_catch
                 (response ← Gemini.generateTherapyResponse E messages;
                  Storage.addMessage E sessionId assistant response;;
                  evaluateEveryFifth sessionId;;
                  mret (NextResponse_json (ResponseField response) 200))
                 (fun geminiError =>
                    mret (NextResponse_json
                            (ErrorField "Failed to generate response from AI") 500))
           end
       end)
    (fun error =>
       mret (NextResponse_json (ErrorField "Failed to process message") 500)).



End WithEnv.
End ChatMessageRoute.

(** [GET /api/admin/sessions/:id]. *)
Module AdminSessionRoute.

Definition GET (id : string) : Eff Response :=
  try_catch
    (session ← Storage.getChatSession id;
     match session with
     | None => mret (NextResponse_json (ErrorField "Session not found") 404)
     | Some session => mret (NextResponse_json (SessionField session) 200)
     end)
    (fun error =>
       mret (NextResponse_json (ErrorField "Failed to fetch session") 500)).

End AdminSessionRoute.

(** Bodies of the remaining routes: [{ sessionId }], [{ sessions }],
    [{ message }] and [{ error }]. *)
Record SessionSummary := {
  summary_id : string;
  messageCount : nat;
  summary_evaluation : option StoredEvaluation;
  summary_createdAt : Z;
  summary_updatedAt : Z
}.

Inductive RouteBody :=
  | SessionIdField (sessionId : string)
  | SessionsField (sessions : list SessionSummary)
  | MessageField (message : string)
  | FailureField (error : string).

Record RouteResponse := {
  route_payload : RouteBody;
  route_status : Z
}.

Definition RouteResponse_json (payload : RouteBody) (status : Z) : RouteResponse :=
  {| route_payload := payload; route_status := status |}.

(** [POST /api/chat/create]. *)
Module ChatCreateRoute.
Section WithEnv.
Context (E : Env).

Definition POST : Eff RouteResponse :=
  try_catch
    (sessionId ← Storage.createChatSession E;
     mret (RouteResponse_json (SessionIdField sessionId) 200))
    (fun error =>
       mret (RouteResponse_json (FailureField "Failed to create session") 500)).

End WithEnv.
End ChatCreateRoute.

(** [GET] and [DELETE /api/admin/sessions]. *)
Module AdminSessionsRoute.

Definition summarize (session : ChatSession) : SessionSummary :=
  {| summary_id := id session;
     messageCount := length (messages session);
     summary_evaluation := evaluation session;
     summary_createdAt := createdAt session;
     summary_updatedAt := updatedAt session |}.

Definition GET : Eff RouteResponse :=
  try_catch
    (sessions ← Storage.getAllSessions;
     let formattedSessions := map summarize sessions in
     mret (RouteResponse_json (SessionsField formattedSessions) 200))
    (fun error =>
       mret (RouteResponse_json (FailureField "Failed to fetch sessions") 500)).

(** The [for (const session of sessions)] loop of [DELETE]. *)
Fixpoint deleteEach (sessions : list ChatSession) : Eff unit :=
  match sessions with
  | [] => mret tt
  | session :: rest =>
      Storage.deleteSession (id session);;
      deleteEach rest
  end.

Definition DELETE : Eff RouteResponse :=
  try_catch
    (sessions ← Storage.getAllSessions;
     deleteEach sessions;;
     mret (RouteResponse_json (MessageField "All sessions cleared") 200))
    (fun error =>
       mret (RouteResponse_json (FailureField "Failed to clear sessions") 500)).

End AdminSessionsRoute.

(** ** Vocabulary of the statements *)

(** The folder once [initializeStorage] has run. *)
Definition init_disk (d : Disk) : Disk :=
  match d with
  | NoDir => Dir true ∅
  | Dir l fs => Dir l fs
  end.

Definition with_disk (w : World) (d : Disk) : World :=
  {| disk := d; tick := tick w; trace := trace w |}.

(** The record a well-formed session file holds, if there is one. *)
Definition session_at (id : string) (d : Disk) : option ChatSession :=
  match files_of d !! Storage.getSessionPath id with
  | Some (Json s) => Some s
  | _ => None
  end.

Definition write_file (p : string) (data : file_data) (d : Disk) : Disk :=
  match d with
  | NoDir => NoDir
  | Dir l fs => Dir l (<[p := data]> fs)
  end.

Definition message_count (id : string) (d : Disk) : nat :=
  match session_at id d with
  | Some s => length (messages s)
  | None => 0
  end.

(** The session a request names ([""] when it names none). *)
Definition requested_session (request : Request) : string :=
  match request with
  | JsonBody body => field_text (sessionId body)
  | MalformedBody => ""
  end.

Definition positive_multiple_of_5 (n : nat) : Prop :=
  exists k : nat, 0 < k /\ n = 5 * k.

(** The trigger of the periodic evaluation, as the handler tests it. *)
Definition due (n : nat) : bool := (5 <=? n)%nat && (n mod 5 =? 0)%nat.

Definition is_evaluate_call (ev : Event) : bool :=
  match ev with
  | CallEvaluateMentalHealth _ => true
  | CallGenerateTherapyResponse _ => false
  end.

(** How many times [evaluateMentalHealth] has been called so far. *)
Definition evaluate_calls (w : World) : nat :=
  length (filter is_evaluate_call (trace w)).

(** The sessions held by the [.json] files of a folder, in listing order;
    [None] when one of those files does not parse. *)
Fixpoint parse_all (fs : gmap string file_data) (names : list string)
  : option (list ChatSession) :=
  match names with
  | [] => Some []
  | p :: rest =>
      if endsWith p ".json" then
        match fs !! p with
        | Some (Json s) => cons s <$> parse_all fs rest
        | _ => None
        end
      else parse_all fs rest
  end.

Definition descending (a b : ChatSession) : Prop :=
  (updatedAt b <= updatedAt a)%Z.

(** What [getAllSessions] returns on a folder. *)
Definition listing (d : Disk) : list ChatSession :=
  match init_disk d with
  | Dir true fs =>
      match parse_all fs (elements (dom fs)) with
      | Some l => Array_sort Storage.compareUpdated l
      | None => []
      end
  | _ => []
  end.

(** Two records that agree on every field except, possibly, [evaluation]. *)
Definition same_but_evaluation (a b : ChatSession) : Prop :=
  id a = id b /\ messages a = messages b /\
  createdAt a = createdAt b /\ updatedAt a = updatedAt b.

Definition no_underscore (s : string) : Prop :=
  ~ In "_"%char (list_ascii_of_string s).

(** The only error [evaluateMentalHealth] lets out. *)
Definition evaluation_failed : js_error := Error "Failed to evaluate conversation".

(** A text with an opening brace and, somewhere after it, a closing one. *)
Definition has_braces (text : string) : Prop :=
  exists a b c, text = a +:+ String "{" (b +:+ String "}" c).

(** Every session record sits in the file named after its own [id]. *)
Definition well_named (d : Disk) : Prop :=
  forall p s, files_of d !! p = Some (Json s) -> p = Storage.getSessionPath (id s).

(** The folder after [unlinkSync] of a file that may or may not be there. *)
Definition unlink_file (p : string) (d : Disk) : Disk :=
  match d with
  | NoDir => NoDir
  | Dir l fs => Dir l (delete p fs)
  end.

(** [s'] is [s] with, possibly, more messages at the end and another
    evaluation or update time. *)
Definition extends (s s' : ChatSession) : Prop :=
  id s' = id s /\ createdAt s' = createdAt s /\ messages s `prefix_of` messages s'.

(** A step that keeps every session that loads, possibly extended. *)
Definition grows (w w' : World) : Prop :=
  forall id' s, session_at id' (disk w) = Some s ->
    exists s', session_at id' (disk w') = Some s' /\ extends s s'.

(** The world after the chat handler has served, one after the other, a
    request for each of the given messages on one session. *)
Definition converse (E : Env) (sid : string) (msgs : list string) (w : World)
  : World :=
  foldl (fun w msg =>
           snd (ChatMessageRoute.POST E
                  (JsonBody {| sessionId := Some sid; message := Some msg |}) w))
        w msgs.

(** Every [.json] file of the folder holds a session record. *)
Definition all_parse (fs : gmap string file_data) : Prop :=
  forall p data, endsWith p ".json" = true -> fs !! p = Some data ->
                 exists s, data = Json s.

(** No character of [s] is [c]. *)
Definition lacks (c : ascii) (s : string) : Prop :=
  ~ In c (list_ascii_of_string s).

(** ** Sample environments and worlds *)

(** A provider that always answers, with prose. *)
Definition steadyEnv : Env := {|
  Date_now := fun n => (1700000000000 + Z.of_nat n)%Z;
  Math_random := fun n => "k3f9x2a";
  generateContent := fun n prompt => inr "I hear you. Tell me more.";
  JSON_parse_text := fun text => None;
  systemPrompt := "You are a professional, empathetic AI mental health companion.";
  evaluationPromptHead := "CONVERSATION HISTORY:";
  evaluationPromptTail := "IMPORTANT: Do not diagnose."
|}.

(** A stopped clock, a constant random source and a provider that is down. *)
Definition frozenEnv : Env := {|
  Date_now := fun n => 1700000000000%Z;
  Math_random := fun n => "k3f9x2a";
  generateContent := fun n prompt => inl (Error "503 Service Unavailable");
  JSON_parse_text := fun text => None;
  systemPrompt := "";
  evaluationPromptHead := "";
  evaluationPromptTail := ""
|}.

Definition calm : Evaluation :=
  {| wellnessScore := 72; emotionalState := "Tired but coping";
     keyConcerns := ["sleep"]; riskLevel := "low";
     recommendations := ["rest"]; summary := "Mild distress." |}.

(** [s] between double quotes. *)
Definition quoted (s : string) : string :=
  String (ascii_of_nat 34) (s +:+ String (ascii_of_nat 34) "").

(** The JSON text of [calm], in the structure the evaluation prompt asks
    for. *)
Definition calm_json : string :=
  "{" +:+ quoted "wellnessScore" +:+ ": 72, "
      +:+ quoted "emotionalState" +:+ ": " +:+ quoted "Tired but coping" +:+ ", "
      +:+ quoted "riskLevel" +:+ ": " +:+ quoted "low" +:+ ", "
      +:+ quoted "keyConcerns" +:+ ": [" +:+ quoted "sleep" +:+ "], "
      +:+ quoted "recommendations" +:+ ": [" +:+ quoted "rest" +:+ "], "
      +:+ quoted "summary" +:+ ": " +:+ quoted "Mild distress." +:+ "}".

(** A provider that wraps its JSON answer in prose, and a parser that reads
    that JSON object. *)
Definition candidEnv : Env := {|
  Date_now := fun n => (1700000000000 + Z.of_nat n)%Z;
  Math_random := fun n => "k3f9x2a";
  generateContent := fun n prompt =>
    inr ("Here is the assessment: " +:+ calm_json +:+ " I hope it helps.");
  JSON_parse_text := fun text =>
    if String.eqb text calm_json then Some calm else None;
  systemPrompt := "";
  evaluationPromptHead := "";
  evaluationPromptTail := ""
|}.

Definition three_messages : list ChatMessage :=
  [ {| role := user; content := "I feel anxious today"; timestamp := 1000 |};
    {| role := assistant; content := "What is on your mind?"; timestamp := 1001 |};
    {| role := user; content := "Work"; timestamp := 1002 |} ].

Definition anna : ChatSession :=
  {| id := "anna"; messages := three_messages; evaluation := None;
     createdAt := 900; updatedAt := 1002 |}.

Definition anna_files : gmap string file_data :=
  {[ "anna.json" := Json anna ]}.

Definition anna_world : World :=
  {| disk := Dir true anna_files; tick := 0; trace := [] |}.

Definition mixed_world : World :=
  {| disk := Dir true (<[ "broken.json" := Garbage "{ not json" ]> anna_files);
     tick := 0; trace := [] |}.

Definition bob : ChatSession :=
  {| id := "bob"; messages := []; evaluation := None;
     createdAt := 2000; updatedAt := 2000 |}.

Definition pair_files : gmap string file_data :=
  <[ "bob.json" := Json bob ]> anna_files.

Definition pair_world : World :=
  {| disk := Dir true pair_files; tick := 0; trace := [] |}.

Definition blank_world : World := {| disk := NoDir; tick := 0; trace := [] |}.

Definition anna_request : Request :=
  JsonBody {| sessionId := Some "anna"; message := Some "I cannot sleep" |}.

(** [anna] after the user's turn and after the assistant's reply. *)
Definition anna_asked (t1 t2 : Z) : ChatSession :=
  set_updatedAt
    (push_message anna {| role := user; content := "I cannot sleep";
                          timestamp := t1 |}) t2.

Definition anna_answered (t1 t2 t3 t4 : Z) : ChatSession :=
  set_updatedAt
    (push_message (anna_asked t1 t2)
       {| role := assistant; content := "I hear you. Tell me more.";
          timestamp := t3 |}) t4.

(** A folder where [anna] already holds five messages. *)
Definition answered_world : World :=
  {| disk := Dir true {[ "anna.json" := Json (anna_answered 1003 1004 1005 1006) ]};
     tick := 0; trace := [] |}.


(** ** Running the storage operations *)

Ltac run_eff :=
  unfold mbind, Eff_bind, mret, Eff_ret, throw, try_catch, get_disk, put_disk,
    observe, log_call; simpl.

Lemma files_of_init_disk d : files_of (init_disk d) = files_of d.
Proof. by destruct d. Qed.

Lemma init_disk_idem d : init_disk (init_disk d) = init_disk d.
Proof. by destruct d. Qed.

Lemma session_at_init_disk id d : session_at id (init_disk d) = session_at id d.
Proof. unfold session_at. by rewrite files_of_init_disk. Qed.

Lemma initializeStorage_run w :
  Storage.initializeStorage w = (Return tt, with_disk w (init_disk (disk w))).
Proof.
  destruct w as [[|l fs] t tr]; reflexivity.
Qed.

Lemma getChatSession_run id w :
  Storage.getChatSession id w
  = (Return (session_at id (disk w)), with_disk w (init_disk (disk w))).
Proof.
  unfold Storage.getChatSession.
  unfold mbind at 1, Eff_bind at 1. rewrite initializeStorage_run.
  unfold session_at, existsSync, readFileSync, with_disk. run_eff.
  rewrite !files_of_init_disk.
  destruct (files_of (disk w) !! Storage.getSessionPath id) as [[s|raw]|] eqn:Hf;
    simpl; rewrite ?files_of_init_disk, ?Hf; reflexivity.
Qed.

Section StorageRuns.
Context (E : Env).

Lemma addMessage_run sessionId r c w :
  Storage.addMessage E sessionId r c w =
  (Return tt,
   match session_at sessionId (disk w) with
   | None => with_disk w (init_disk (disk w))
   | Some s =>
       {| disk :=
            write_file (Storage.getSessionPath sessionId)
              (Json (set_updatedAt
                       (push_message s {| role := r; content := c;
                                          timestamp := Date_now E (tick w) |})
                       (Date_now E (S (tick w)))))
              (init_disk (disk w));
          tick := S (S (tick w));
          trace := trace w |}
   end).
Proof.
  unfold Storage.addMessage.
  unfold mbind at 1, Eff_bind at 1. rewrite getChatSession_run.
  destruct (session_at sessionId (disk w)) as [s|]; [|reflexivity].
  unfold Storage.new_Date_toISOString, writeFileSync, with_disk. run_eff.
  by destruct (disk w).
Qed.

Lemma updateEvaluation_run sessionId ev w :
  Storage.updateEvaluation sessionId ev w =
  (Return tt,
   match session_at sessionId (disk w) with
   | None => with_disk w (init_disk (disk w))
   | Some s =>
       with_disk w
         (write_file (Storage.getSessionPath sessionId)
            (Json (set_evaluation s ev)) (init_disk (disk w)))
   end).
Proof.
  unfold Storage.updateEvaluation.
  unfold mbind at 1, Eff_bind at 1. rewrite getChatSession_run.
  destruct (session_at sessionId (disk w)) as [s|]; [|reflexivity].
  unfold writeFileSync, with_disk. run_eff.
  by destruct (disk w).
Qed.

End StorageRuns.

Lemma session_at_write_same id s d :
  session_at id (write_file (Storage.getSessionPath id) (Json s) (init_disk d))
  = Some s.
Proof.
  unfold session_at. destruct d; simpl; by rewrite lookup_insert_eq.
Qed.

Lemma files_of_write_other p q data d :
  p ≠ q -> files_of (write_file p data (init_disk d)) !! q = files_of d !! q.
Proof.
  intros Hne. destruct d; simpl; by rewrite lookup_insert_ne.
Qed.

Lemma with_disk_same w : with_disk w (disk w) = w.
Proof. by destruct w. Qed.

Lemma init_disk_present d : d ≠ NoDir -> init_disk d = d.
Proof. by destruct d. Qed.

Lemma deleteSession_run sessionId w :
  Storage.deleteSession sessionId w =
  match files_of (disk w) !! Storage.getSessionPath sessionId with
  | Some _ =>
      (Return true,
       with_disk w
         (match disk w with
          | NoDir => NoDir
          | Dir l fs => Dir l (delete (Storage.getSessionPath sessionId) fs)
          end))
  | None => (Return false, w)
  end.
Proof.
  unfold Storage.deleteSession, existsSync, unlinkSync, with_disk. run_eff.
  destruct w as [[|l fs] t tr]; simpl.
  - rewrite lookup_empty. reflexivity.
  - destruct (fs !! Storage.getSessionPath sessionId) as [data|] eqn:Hf; simpl;
      rewrite ?Hf; reflexivity.
Qed.

Lemma AdminSessionRoute_GET_run id w :
  AdminSessionRoute.GET id w =
  (Return
     match session_at id (disk w) with
     | None => NextResponse_json (ErrorField "Session not found") 404
     | Some s => NextResponse_json (SessionField s) 200
     end,
   with_disk w (init_disk (disk w))).
Proof.
  unfold AdminSessionRoute.GET.
  unfold try_catch, mbind, Eff_bind. rewrite getChatSession_run.
  by destruct (session_at id (disk w)).
Qed.

(** ** Session store: missing sessions, deletion *)

Section StoreClaims.
Context (E : Env).

(** C7. For a session identifier without a stored record, [addMessage] and
    [updateEvaluation] return normally, create no file and leave every stored
    record as it was (when the sessions folder already exists the whole world
    is unchanged; the lazy [initializeStorage] creates it otherwise).  For a
    session that loads, they return normally and the record stored afterwards
    is the one read with, for [addMessage], the new message (role, content,
    clock reading) appended after the former messages and [updatedAt] set to
    the next clock reading, and, for [updateEvaluation], the evaluation
    replaced; the other fields and the other files are unchanged. *)
Theorem addMessage_updateEvaluation_missing_or_present :
  forall (sessionId : string) (w : World),
    (files_of (disk w) !! Storage.getSessionPath sessionId = None ->
     forall r c ev,
       fst (Storage.addMessage E sessionId r c w) = Return tt /\
       fst (Storage.updateEvaluation sessionId ev w) = Return tt /\
       files_of (disk (snd (Storage.addMessage E sessionId r c w)))
         = files_of (disk w) /\
       files_of (disk (snd (Storage.updateEvaluation sessionId ev w)))
         = files_of (disk w) /\
       (disk w ≠ NoDir ->
        snd (Storage.addMessage E sessionId r c w) = w /\
        snd (Storage.updateEvaluation sessionId ev w) = w)) /\
    (forall s, session_at sessionId (disk w) = Some s ->
     forall r c ev,
       fst (Storage.addMessage E sessionId r c w) = Return tt /\
       (exists s',
          session_at sessionId (disk (snd (Storage.addMessage E sessionId r c w)))
            = Some s' /\
          messages s'
            = (messages s
                 ++ [ {| role := r; content := c;
                         timestamp := Date_now E (tick w) |} ])%list /\
          updatedAt s' = Date_now E (S (tick w)) /\
          id s' = id s /\ createdAt s' = createdAt s /\
          evaluation s' = evaluation s) /\
       (forall p, p ≠ Storage.getSessionPath sessionId ->
          files_of (disk (snd (Storage.addMessage E sessionId r c w))) !! p
          = files_of (disk w) !! p) /\
       fst (Storage.updateEvaluation sessionId ev w) = Return tt /\
       (exists s',
          session_at sessionId (disk (snd (Storage.updateEvaluation sessionId ev w)))
            = Some s' /\
          evaluation s' = ev /\
          id s' = id s /\ messages s' = messages s /\
          createdAt s' = createdAt s /\ updatedAt s' = updatedAt s) /\
       (forall p, p ≠ Storage.getSessionPath sessionId ->
          files_of (disk (snd (Storage.updateEvaluation sessionId ev w))) !! p
          = files_of (disk w) !! p)).
Proof.
  intros sessionId w. split.
  - intros Hnone r c ev.
    rewrite addMessage_run, updateEvaluation_run.
    assert (session_at sessionId (disk w) = None) as ->
      by (unfold session_at; by rewrite Hnone).
    simpl. rewrite files_of_init_disk. repeat split; trivial.
    all: rewrite init_disk_present by done; apply with_disk_same.
  - intros s Hs r c ev.
    rewrite addMessage_run, updateEvaluation_run, Hs. simpl.
    rewrite !session_at_write_same.
    split; [done|]. split; [eexists; by repeat split|].
    split; [intros p Hp; by rewrite files_of_write_other|].
    split; [done|]. split; [eexists; by repeat split|].
    intros p Hp. by rewrite files_of_write_other.
Qed.

End StoreClaims.

(** C8. [deleteSession] returns [true] exactly when a file for the identifier
    exists, in which case that file, and only that file, is removed; it
    returns [false] and changes nothing otherwise, and never throws.  After a
    deletion that returned [true], [getChatSession] yields [undefined] and the
    admin detail route answers 404. *)
Theorem deleteSession_then_not_found :
  forall (sessionId : string) (w : World),
    let path := Storage.getSessionPath sessionId in
    let w' := snd (Storage.deleteSession sessionId w) in
    (fst (Storage.deleteSession sessionId w) = Return true \/
     fst (Storage.deleteSession sessionId w) = Return false) /\
    (fst (Storage.deleteSession sessionId w) = Return true
     <-> is_Some (files_of (disk w) !! path)) /\
    (fst (Storage.deleteSession sessionId w) = Return true ->
     files_of (disk w') = delete path (files_of (disk w)) /\
     fst (Storage.getChatSession sessionId w') = Return None /\
     fst (AdminSessionRoute.GET sessionId w')
       = Return (NextResponse_json (ErrorField "Session not found") 404)) /\
    (fst (Storage.deleteSession sessionId w) = Return false -> w' = w).
Proof.
  intros sessionId w path w'. subst path w'.
  rewrite deleteSession_run.
  destruct (files_of (disk w) !! Storage.getSessionPath sessionId)
    as [data|] eqn:Hf; simpl.
  - split; [by left|]. split; [split; eauto|].
    split; [|discriminate]. intros _.
    assert (files_of
              match disk w with
              | NoDir => NoDir
              | Dir l fs => Dir l (delete (Storage.getSessionPath sessionId) fs)
              end = delete (Storage.getSessionPath sessionId) (files_of (disk w)))
      as Hdel.
    { destruct (disk w); simpl; [by rewrite delete_empty|done]. }
    split; [exact Hdel|].
    rewrite getChatSession_run, AdminSessionRoute_GET_run. simpl.
    unfold session_at. rewrite Hdel, lookup_delete_eq. done.
  - split; [by right|]. split.
    + split; [discriminate|]. intros [? ?]; discriminate.
    + split; [discriminate|done].
Qed.

(** ** Listing the sessions *)

Lemma readSessions_run names :
  forall acc w,
    match parse_all (files_of (disk w)) names with
    | Some l => Storage.readSessions names acc w = (Return (acc ++ l)%list, w)
    | None => exists e, Storage.readSessions names acc w = (Throw e, w)
    end.
Proof.
  induction names as [|p rest IH]; intros acc w; simpl.
  - by rewrite app_nil_r.
  - destruct (endsWith p ".json"); [|apply IH].
    unfold readFileSync. run_eff.
    destruct (files_of (disk w) !! p) as [[s|raw]|]; simpl; eauto.
    specialize (IH (acc ++ [s])%list w).
    destruct (parse_all (files_of (disk w)) rest) as [l|]; simpl.
    + by rewrite IH, <- app_assoc.
    + exact IH.
Qed.

Lemma getAllSessions_run w :
  Storage.getAllSessions w
  = (Return (listing (disk w)), with_disk w (init_disk (disk w))).
Proof.
  unfold Storage.getAllSessions.
  unfold mbind at 1, Eff_bind at 1. rewrite initializeStorage_run.
  unfold listing, try_catch, readdirSync, with_disk. run_eff.
  destruct (init_disk (disk w)) as [|[|] fs] eqn:Hd; simpl; try reflexivity.
  pose proof (readSessions_run (elements (dom fs)) []
                {| disk := Dir true fs; tick := tick w; trace := trace w |}) as H.
  simpl in H.
  destruct (parse_all fs (elements (dom fs))) as [l|].
  - by rewrite H.
  - destruct H as [e ->]. reflexivity.
Qed.

Lemma insert_sorted_perm {A} (cmp : A -> A -> Z) x l :
  insert_sorted cmp x l ≡ₚ x :: l.
Proof.
  induction l as [|y r IH]; simpl; [done|].
  destruct (cmp x y <=? 0)%Z; [done|].
  rewrite IH. apply perm_swap.
Qed.

Lemma Array_sort_perm {A} (cmp : A -> A -> Z) l : Array_sort cmp l ≡ₚ l.
Proof.
  induction l as [|x r IH]; simpl; [done|].
  rewrite insert_sorted_perm. by rewrite IH.
Qed.

Lemma insert_sorted_descending x l :
  StronglySorted descending l ->
  StronglySorted descending (insert_sorted Storage.compareUpdated x l).
Proof.
  induction 1 as [|y r Hr IH Hy]; simpl.
  - repeat constructor.
  - unfold Storage.compareUpdated at 1.
    destruct (Z.leb_spec (updatedAt y - updatedAt x) 0) as [Hle|Hgt].
    + constructor; [by constructor|].
      constructor; [unfold descending; lia|].
      eapply Forall_impl; [exact Hy|]. unfold descending. intros; lia.
    + constructor; [exact IH|].
      rewrite insert_sorted_perm. constructor; [unfold descending; lia|done].
Qed.

Lemma Array_sort_descending l :
  StronglySorted descending (Array_sort Storage.compareUpdated l).
Proof.
  induction l as [|x r IH]; simpl; [constructor|].
  by apply insert_sorted_descending.
Qed.

Lemma parse_all_Some fs names l :
  parse_all fs names = Some l ->
  length l = length (filter (fun p => endsWith p ".json" = true) names) /\
  forall s, s ∈ l <->
    exists p, p ∈ names /\ endsWith p ".json" = true /\ fs !! p = Some (Json s).
Proof.
  revert l. induction names as [|p rest IH]; simpl; intros l Hl.
  - injection Hl as <-. split; [done|]. intros s. split.
    + by intros ?%elem_of_nil.
    + by intros (q & ?%elem_of_nil & _).
  - rewrite filter_cons. destruct (endsWith p ".json") eqn:Hp.
    + rewrite decide_True by (simpl; congruence).
      destruct (fs !! p) as [[s0|raw]|] eqn:Hf; try discriminate.
      destruct (parse_all fs rest) as [l0|]; [|discriminate].
      injection Hl as <-. destruct (IH l0 eq_refl) as [Hlen Hin].
      split; [simpl; by rewrite Hlen|].
      intros s. rewrite elem_of_cons, Hin. split.
      * intros [->|(q & Hq & He & Hs)].
        -- exists p. split; [left|]; done.
        -- exists q. split; [by right|done].
      * intros (q & [->|Hq]%elem_of_cons & He & Hs).
        -- left. congruence.
        -- right. eauto.
    + rewrite decide_False by (simpl; congruence).
      destruct (IH l Hl) as [Hlen Hin]. split; [done|].
      intros s. rewrite Hin. split.
      * intros (q & Hq & He & Hs). exists q. split; [by right|done].
      * intros (q & [->|Hq]%elem_of_cons & He & Hs); [congruence|eauto].
Qed.

Lemma parse_all_None fs names p raw :
  p ∈ names -> endsWith p ".json" = true -> fs !! p = Some (Garbage raw) ->
  parse_all fs names = None.
Proof.
  induction names as [|q rest IH]; simpl.
  - by intros ?%elem_of_nil.
  - intros [->|Hin]%elem_of_cons He Hf.
    + by rewrite He, Hf.
    + destruct (endsWith q ".json"); [|by apply IH].
      destruct (fs !! q) as [[s|?]|]; try done.
      by rewrite IH.
Qed.

Lemma parse_all_total fs names :
  (forall p data, p ∈ names -> endsWith p ".json" = true ->
                  fs !! p = Some data -> exists s, data = Json s) ->
  (forall p, p ∈ names -> is_Some (fs !! p)) ->
  is_Some (parse_all fs names).
Proof.
  induction names as [|q rest IH]; simpl; intros Hok Hdom; [eauto|].
  assert (is_Some (parse_all fs rest)) as [l Hl].
  { apply IH; intros; [eapply Hok|apply Hdom]; eauto using list_elem_of_further. }
  destruct (endsWith q ".json") eqn:Hq; [|eauto].
  destruct (Hdom q) as [data Hdata]; [left|].
  destruct (Hok q data) as [s ->]; [left|done|done|].
  rewrite Hdata, Hl. simpl. eauto.
Qed.

Lemma same_but_evaluation_refl s : same_but_evaluation s s.
Proof. by repeat split. Qed.

Lemma same_but_evaluation_set s ev : same_but_evaluation s (set_evaluation s ev).
Proof. by repeat split. Qed.

Lemma parse_all_update fs names p s s' :
  fs !! p = Some (Json s) ->
  same_but_evaluation s s' ->
  option_Forall2 (Forall2 same_but_evaluation)
    (parse_all fs names) (parse_all (<[p := Json s']> fs) names).
Proof.
  intros Hp Hs. induction names as [|q rest IH]; simpl.
  - by repeat constructor.
  - destruct (endsWith q ".json"); [|exact IH].
    destruct (decide (p = q)) as [<-|Hne].
    + rewrite lookup_insert_eq, Hp.
      destruct IH as [l l' Hll|]; simpl; constructor. by constructor.
    + rewrite lookup_insert_ne by done.
      destruct (fs !! q) as [[s0|raw]|]; try constructor.
      destruct IH as [l l' Hll|]; simpl; constructor.
      constructor; [apply same_but_evaluation_refl|done].
Qed.

Lemma insert_sorted_same x x' l l' :
  same_but_evaluation x x' ->
  Forall2 same_but_evaluation l l' ->
  Forall2 same_but_evaluation
    (insert_sorted Storage.compareUpdated x l)
    (insert_sorted Storage.compareUpdated x' l').
Proof.
  intros Hx. induction 1 as [|y y' r r' Hy Hr IH]; simpl.
  - constructor; [done|constructor].
  - assert (Storage.compareUpdated x y = Storage.compareUpdated x' y') as ->.
    { unfold Storage.compareUpdated.
      destruct Hx as (_ & _ & _ & ->), Hy as (_ & _ & _ & ->). done. }
    destruct (Storage.compareUpdated x' y' <=? 0)%Z.
    + constructor; [done|]. by constructor.
    + by constructor.
Qed.

Lemma Array_sort_same l l' :
  Forall2 same_but_evaluation l l' ->
  Forall2 same_but_evaluation
    (Array_sort Storage.compareUpdated l) (Array_sort Storage.compareUpdated l').
Proof.
  induction 1; simpl; [constructor|]. by apply insert_sorted_same.
Qed.

Lemma listing_update id s s' d :
  session_at id d = Some s ->
  same_but_evaluation s s' ->
  Forall2 same_but_evaluation
    (listing d)
    (listing (write_file (Storage.getSessionPath id) (Json s') (init_disk d))).
Proof.
  unfold session_at, listing. intros Hs Hsame.
  destruct d as [|l fs]; simpl in *; [by rewrite lookup_empty in Hs|].
  destruct (fs !! Storage.getSessionPath id) as [[s0|raw]|] eqn:Hf;
    try discriminate.
  injection Hs as ->.
  destruct l; [|constructor].
  rewrite dom_insert_lookup_L by eauto.
  destruct (parse_all_update fs (elements (dom fs)) _ s s' Hf Hsame)
    as [l0 l1 Hl|]; [|constructor].
  by apply Array_sort_same.
Qed.

(** ** Listing and evaluation frame *)

(** C5, as the code has it.  [getAllSessions] never throws.  On a folder that
    cannot be enumerated it returns the empty array; when one [.json] file
    does not parse the whole listing is abandoned and the empty array is
    returned as well; when every [.json] file parses it returns exactly the
    sessions of those files, most recently updated first. *)
Theorem getAllSessions_all_or_nothing :
  forall (w : World) (listable : bool) (fs : gmap string file_data),
    disk w = Dir listable fs ->
    exists L,
      Storage.getAllSessions w = (Return L, w) /\
      (listable = false -> L = []) /\
      ((exists p raw, endsWith p ".json" = true /\ fs !! p = Some (Garbage raw)) ->
       L = []) /\
      (listable = true ->
       (forall p data, endsWith p ".json" = true -> fs !! p = Some data ->
                       exists s, data = Json s) ->
       (forall s, s ∈ L <->
          exists p, endsWith p ".json" = true /\ fs !! p = Some (Json s)) /\
       length L
         = length (filter (fun p => endsWith p ".json" = true) (elements (dom fs))) /\
       StronglySorted descending L).
Proof.
  intros w listable fs Hd. exists (listing (disk w)).
  rewrite getAllSessions_run, Hd. simpl.
  split; [f_equal; rewrite <- Hd; apply with_disk_same|].
  unfold listing. simpl. split; [by intros ->|]. split.
  - intros (p & raw & He & Hp). destruct listable; [|done].
    erewrite parse_all_None; eauto.
    apply elem_of_elements, elem_of_dom. eauto.
  - intros -> Hok.
    destruct (parse_all_total fs (elements (dom fs))) as [l Hl].
    { intros p data _. apply Hok. }
    { intros p Hp%elem_of_elements. by apply elem_of_dom. }
    rewrite Hl. destruct (parse_all_Some _ _ _ Hl) as [Hlen Hin].
    split; [|split].
    + intros s. rewrite Array_sort_perm, Hin. split.
      * intros (p & _ & He & Hp). eauto.
      * intros (p & He & Hp). exists p. split; [|done].
        apply elem_of_elements, elem_of_dom. eauto.
    + by rewrite Array_sort_perm.
    + apply Array_sort_descending.
Qed.

Section EvaluationFrame.
Context (E : Env).

(** C10. On a session that loads, [updateEvaluation] writes back the same
    record with only [evaluation] replaced: [id], [messages], [createdAt] and
    [updatedAt] are the ones read, every other file is untouched, and
    [getAllSessions] lists the same sessions at the same positions (up to the
    evaluation field).  [addMessage], by contrast, stamps [updatedAt] with
    the clock. *)
Theorem updateEvaluation_changes_only_evaluation :
  forall (sessionId : string) (ev : option StoredEvaluation) (w : World)
         (s : ChatSession),
    session_at sessionId (disk w) = Some s ->
    let w' := snd (Storage.updateEvaluation sessionId ev w) in
    (exists s',
       session_at sessionId (disk w') = Some s' /\
       evaluation s' = ev /\ id s' = id s /\ messages s' = messages s /\
       createdAt s' = createdAt s /\ updatedAt s' = updatedAt s) /\
    (forall p, p ≠ Storage.getSessionPath sessionId ->
               files_of (disk w') !! p = files_of (disk w) !! p) /\
    (exists L L',
       fst (Storage.getAllSessions w) = Return L /\
       fst (Storage.getAllSessions w') = Return L' /\
       Forall2 same_but_evaluation L L') /\
    (forall r c, exists s'',
       session_at sessionId (disk (snd (Storage.addMessage E sessionId r c w)))
         = Some s'' /\
       updatedAt s'' = Date_now E (S (tick w))).
Proof.
  intros sessionId ev w s Hs w'. subst w'.
  rewrite updateEvaluation_run, Hs. simpl.
  split; [|split; [|split]].
  - exists (set_evaluation s ev). by rewrite session_at_write_same.
  - intros p Hp. by rewrite files_of_write_other.
  - exists (listing (disk w)), (listing
      (write_file (Storage.getSessionPath sessionId)
         (Json (set_evaluation s ev)) (init_disk (disk w)))).
    rewrite !getAllSessions_run. simpl. repeat split.
    apply (listing_update sessionId s); [done|apply same_but_evaluation_set].
  - intros r c. rewrite addMessage_run, Hs. simpl.
    rewrite session_at_write_same. eauto.
Qed.

End EvaluationFrame.

(** ** Session identifiers *)

Lemma no_underscore_cons c s :
  no_underscore (String c s) <-> c ≠ "_"%char /\ no_underscore s.
Proof.
  unfold no_underscore. simpl. split.
  - intros H. split; [intros ->|intros ?]; apply H; auto.
  - intros [Hc Hs] [?|?]; [by apply Hc|by apply Hs].
Qed.

Lemma pretty_N_char_no_underscore x : pretty_N_char x ≠ "_"%char.
Proof. unfold pretty_N_char. by repeat case_match. Qed.

Lemma pretty_N_go_no_underscore x :
  forall s, no_underscore s -> no_underscore (pretty_N_go x s).
Proof.
  induction (N.lt_wf_0 x) as [x _ IH]; intros s Hs.
  destruct (decide (x = 0)%N) as [->|Hx].
  - by rewrite pretty_N_go_0.
  - rewrite pretty_N_go_step by lia. apply IH.
    + apply N.div_lt; lia.
    + apply no_underscore_cons. split; [apply pretty_N_char_no_underscore|done].
Qed.

Lemma no_underscore_empty : no_underscore "".
Proof. intros []. Qed.

Lemma pretty_N_no_underscore (x : N) : no_underscore (pretty x).
Proof.
  unfold pretty, pretty_N. case_decide.
  - apply no_underscore_cons. split; [done|apply no_underscore_empty].
  - apply pretty_N_go_no_underscore, no_underscore_empty.
Qed.

Lemma pretty_Z_no_underscore (z : Z) : no_underscore (pretty z).
Proof.
  destruct z as [|p|p]; unfold pretty, pretty_Z.
  - apply no_underscore_cons. split; [done|apply no_underscore_empty].
  - apply pretty_N_no_underscore.
  - simpl. apply no_underscore_cons. split; [done|].
    apply (pretty_N_no_underscore (Npos p)).
Qed.

Lemma append_nil s : "" +:+ s = s.
Proof. reflexivity. Qed.

Lemma append_cons c a s : String c a +:+ s = String c (a +:+ s).
Proof. reflexivity. Qed.

Lemma append_inj_l p a b : p +:+ a = p +:+ b -> a = b.
Proof.
  induction p as [|c p IH]; repeat (rewrite append_nil || rewrite append_cons);
    [done|].
  intros [= H]. by apply IH.
Qed.

Lemma underscore_split a :
  forall b r r',
    no_underscore a -> no_underscore b ->
    a +:+ "_" +:+ r = b +:+ "_" +:+ r' -> a = b /\ r = r'.
Proof.
  induction a as [|c a IH]; intros [|c' b] r r' Ha Hb Heq;
    repeat (rewrite append_nil in Heq || rewrite append_cons in Heq).
  - by injection Heq as ->.
  - injection Heq as <- _. apply no_underscore_cons in Hb as [Hb _]. done.
  - injection Heq as -> _. apply no_underscore_cons in Ha as [Ha _]. done.
  - injection Heq as -> Heq.
    apply no_underscore_cons in Ha as [_ Ha].
    apply no_underscore_cons in Hb as [_ Hb].
    destruct (IH b r r' Ha Hb Heq) as [-> ->]. done.
Qed.

Lemma session_id_inj (t t' : Z) (r r' : string) :
  "session_" +:+ pretty t +:+ "_" +:+ r = "session_" +:+ pretty t' +:+ "_" +:+ r'
  <-> t = t' /\ r = r'.
Proof.
  split; [|by intros [-> ->]].
  intros Heq%append_inj_l.
  apply underscore_split in Heq as [Ht ->];
    [|apply pretty_Z_no_underscore..].
  by apply (inj pretty) in Ht.
Qed.

Section CreateRuns.
Context (E : Env).

Lemma createChatSession_run w :
  let id :=
    "session_" +:+ pretty (Date_now E (tick w)) +:+ "_"
      +:+ Math_random E (S (tick w)) in
  Storage.createChatSession E w =
  (Return id,
   {| disk :=
        write_file (Storage.getSessionPath id)
          (Json {| id := id; messages := []; evaluation := None;
                   createdAt := Date_now E (S (S (tick w)));
                   updatedAt := Date_now E (S (S (S (tick w)))) |})
          (init_disk (disk w));
      tick := S (S (S (S (tick w))));
      trace := trace w |}).
Proof.
  intros id. unfold Storage.createChatSession.
  unfold mbind at 1, Eff_bind at 1. rewrite initializeStorage_run.
  unfold Storage.random_suffix, Storage.new_Date_toISOString, writeFileSync,
    JSON_stringify, with_disk. run_eff.
  by destruct (disk w).
Qed.

(** X22. The two components of an identifier can be read back from it:
    two creations that return identifiers return different ones as soon as
    their clock readings or their random suffixes differ. *)
Theorem createChatSession_ids_differ_when_components_differ :
  forall (w1 w2 w1' w2' : World) (id1 id2 : string),
    Storage.createChatSession E w1 = (Return id1, w1') ->
    Storage.createChatSession E w2 = (Return id2, w2') ->
    Date_now E (tick w1) ≠ Date_now E (tick w2) \/
    Math_random E (S (tick w1)) ≠ Math_random E (S (tick w2)) ->
    id1 ≠ id2.
Proof.
  intros w1 w2 w1' w2' id1 id2. rewrite !createChatSession_run. cbv zeta.
  intros [= <- _] [= <- _] Hdiff Heq.
  apply session_id_inj in Heq as [Ht Hr]. by destruct Hdiff.
Qed.

End CreateRuns.

(** ** The brace match of [evaluateMentalHealth] *)

Lemma upto_last_brace_closing b c :
  upto_last_brace (b +:+ String "}" c) ≠ None.
Proof.
  induction b as [|ch b IH]; repeat (rewrite append_nil || rewrite append_cons);
    simpl.
  - by destruct (upto_last_brace c).
  - by destruct (upto_last_brace (b +:+ String "}" c)).
Qed.

Lemma upto_last_brace_Some s :
  forall p, upto_last_brace s = Some p ->
            exists b c, p = b +:+ "}" /\ s = b +:+ String "}" c.
Proof.
  induction s as [|ch r IH]; simpl; intros p Hp; [discriminate|].
  destruct (upto_last_brace r) as [q|].
  - injection Hp as <-. destruct (IH q eq_refl) as (b & c & -> & ->).
    by exists (String ch b), c.
  - destruct (Ascii.eqb_spec ch "}") as [->|]; [|discriminate].
    injection Hp as <-. by exists "", r.
Qed.

Lemma has_braces_jsonMatch text : has_braces text -> jsonMatch text ≠ None.
Proof.
  intros (a & b & c & ->).
  induction a as [|ch a IH]; repeat (rewrite append_nil || rewrite append_cons);
    simpl.
  - pose proof (upto_last_brace_closing b c).
    by destruct (upto_last_brace (b +:+ String "}" c)).
  - destruct (Ascii.eqb ch "{"); [|done].
    by destruct (upto_last_brace _).
Qed.

Lemma jsonMatch_has_braces text :
  forall j, jsonMatch text = Some j -> has_braces text.
Proof.
  induction text as [|ch r IH]; simpl; intros j Hj; [discriminate|].
  assert (has_braces r -> has_braces (String ch r)) as Hlift.
  { intros (a & b & c & ->). by exists (String ch a), b, c. }
  destruct (Ascii.eqb_spec ch "{") as [->|]; [|eauto].
  destruct (upto_last_brace r) as [p|] eqn:Hp; [|eauto].
  destruct (upto_last_brace_Some r p Hp) as (b & c & _ & ->).
  by exists "", b, c.
Qed.

(** [jsonMatch] is [null] exactly on the texts without a brace pair. *)
Lemma jsonMatch_None_iff text : jsonMatch text = None <-> ~ has_braces text.
Proof.
  split.
  - intros Hnone Hb. by apply has_braces_jsonMatch in Hb.
  - intros Hb. destruct (jsonMatch text) as [j|] eqn:Hj; [|done].
    destruct Hb. by eapply jsonMatch_has_braces.
Qed.

(** ** The AI client *)

Section GeminiRuns.
Context (E : Env).

Lemma generateTherapyResponse_run msgs w :
  Gemini.generateTherapyResponse E msgs w =
  (match generateContent E (tick w) (Gemini.therapyPrompt E msgs) with
   | inr text => Return text
   | inl e => Throw (Error ("Failed to generate response: " +:+ message_of e))
   end,
   {| disk := disk w; tick := S (tick w);
      trace := trace w ++ [CallGenerateTherapyResponse msgs] |}).
Proof.
  unfold Gemini.generateTherapyResponse, Gemini.model_generateContent. run_eff.
  by destruct (generateContent E (tick w) (Gemini.therapyPrompt E msgs)).
Qed.

Lemma evaluateMentalHealth_run conversation w :
  Gemini.evaluateMentalHealth E conversation w =
  (match generateContent E (tick w) (Gemini.evaluationPrompt E conversation) with
   | inr text =>
       match jsonMatch text with
       | Some j =>
           match JSON_parse_text E j with
           | Some v => Return v
           | None => Throw evaluation_failed
           end
       | None => Throw evaluation_failed
       end
   | inl _ => Throw evaluation_failed
   end,
   {| disk := disk w; tick := S (tick w);
      trace := trace w ++ [CallEvaluateMentalHealth conversation] |}).
Proof.
  unfold Gemini.evaluateMentalHealth, Gemini.model_generateContent,
    Gemini.JSON_parse. run_eff.
  destruct (generateContent E (tick w) (Gemini.evaluationPrompt E conversation))
    as [e|text]; simpl; [done|].
  destruct (jsonMatch text) as [j|]; simpl; [|done].
  by destruct (JSON_parse_text E j).
Qed.

(** C6, as the code has it.  Whatever makes [evaluateMentalHealth] fail (the
    provider call, an answer without a brace-delimited substring, or a
    substring that does not parse), the caller receives the one error
    ["Failed to evaluate conversation"]; the function succeeds exactly when
    the provider answers, the answer has such a substring and it parses. *)
Theorem evaluateMentalHealth_single_error :
  forall (conversation : string) (w : World),
    let answer :=
      generateContent E (tick w) (Gemini.evaluationPrompt E conversation) in
    let outcome := fst (Gemini.evaluateMentalHealth E conversation w) in
    (forall e, outcome = Throw e -> e = Error "Failed to evaluate conversation") /\
    (forall v, outcome = Return v <->
       exists text j, answer = inr text /\ jsonMatch text = Some j /\
                      JSON_parse_text E j = Some v) /\
    (outcome = Throw (Error "Failed to evaluate conversation") <->
       (exists e, answer = inl e) \/
       (exists text, answer = inr text /\ ~ has_braces text) \/
       (exists text j, answer = inr text /\ jsonMatch text = Some j /\
                       JSON_parse_text E j = None)).
Proof.
  intros conversation w answer outcome. subst answer outcome.
  setoid_rewrite <- jsonMatch_None_iff.
  rewrite evaluateMentalHealth_run. simpl. unfold evaluation_failed.
  destruct (generateContent E (tick w) (Gemini.evaluationPrompt E conversation))
    as [e|text]; [naive_solver|].
  destruct (jsonMatch text) as [j|] eqn:Hj; [|naive_solver].
  destruct (JSON_parse_text E j) as [v|] eqn:Hv; naive_solver.
Qed.

End GeminiRuns.

(** ** Running the chat handler *)

Lemma init_disk_write p data d :
  init_disk (write_file p data (init_disk d)) = write_file p data (init_disk d).
Proof. by destruct d. Qed.

Lemma write_file_init_disk p data d :
  write_file p data (init_disk (init_disk d)) = write_file p data (init_disk d).
Proof. by rewrite init_disk_idem. Qed.

Lemma session_at_Some_init id d s : session_at id d = Some s -> init_disk d = d.
Proof.
  unfold session_at. destruct d; simpl; [by rewrite lookup_empty|done].
Qed.

Section HandlerRuns.
Context (E : Env).

Lemma evaluateEveryFifth_run sessionId w :
  ChatMessageRoute.evaluateEveryFifth E sessionId w =
  (Return tt,
   match session_at sessionId (disk w) with
   | Some s =>
       if due (length (messages s)) then
         let conversationText := ChatMessageRoute.transcript (messages s) in
         match fst (Gemini.evaluateMentalHealth E conversationText w) with
         | Return v =>
             {| disk :=
                  write_file (Storage.getSessionPath sessionId)
                    (Json (set_evaluation s
                             (Some {| assessment := v;
                                      evaluatedAt := Date_now E (S (tick w)) |})))
                    (init_disk (disk w));
                tick := S (S (tick w));
                trace := trace w ++ [CallEvaluateMentalHealth conversationText] |}
         | Throw _ =>
             {| disk := init_disk (disk w);
                tick := S (tick w);
                trace := trace w ++ [CallEvaluateMentalHealth conversationText] |}
         end
       else with_disk w (init_disk (disk w))
   | None => with_disk w (init_disk (disk w))
   end).
Proof.
  unfold ChatMessageRoute.evaluateEveryFifth.
  unfold mbind at 1, Eff_bind at 1. rewrite getChatSession_run.
  destruct (session_at sessionId (disk w)) as [s|] eqn:Hs; [|reflexivity].
  fold (due (length (messages s))).
  destruct (due (length (messages s))); [|reflexivity].
  unfold try_catch, mbind, Eff_bind.
  rewrite !evaluateMentalHealth_run. simpl.
  destruct (generateContent E (tick w)
              (Gemini.evaluationPrompt E (ChatMessageRoute.transcript (messages s))))
    as [e|text]; simpl; [done|].
  destruct (jsonMatch text) as [j|]; simpl; [|done].
  destruct (JSON_parse_text E j) as [v|]; simpl; [|done].
  unfold Storage.new_Date_toISOString, observe. simpl.
  rewrite updateEvaluation_run. simpl.
  rewrite session_at_init_disk, Hs, init_disk_idem. reflexivity.
Qed.

Lemma POST_run_valid sid msg w s :
  sid ≠ "" -> msg ≠ "" ->
  session_at sid (disk w) = Some s ->
  let s1 :=
    set_updatedAt
      (push_message s {| role := user; content := msg;
                         timestamp := Date_now E (tick w) |})
      (Date_now E (S (tick w))) in
  let w1 := snd (Storage.addMessage E sid user msg w) in
  let g := Gemini.generateTherapyResponse E
             (ChatMessageRoute.history (messages s1)) w1 in
  session_at sid (disk w1) = Some s1 /\
  ChatMessageRoute.POST E
    (JsonBody {| sessionId := Some sid; message := Some msg |}) w =
  match fst g with
  | Throw _ =>
      (Return (NextResponse_json
                 (ErrorField "Failed to generate response from AI") 500),
       snd g)
  | Return reply =>
      (Return (NextResponse_json (ResponseField reply) 200),
       snd (ChatMessageRoute.evaluateEveryFifth E sid
              (snd (Storage.addMessage E sid assistant reply (snd g)))))
  end.
Proof.
  intros Hsid Hmsg Hs s1 w1 g. subst s1 w1 g.
  rewrite addMessage_run, Hs. simpl.
  split; [apply session_at_write_same|].
  unfold ChatMessageRoute.POST, try_catch at 1.
  unfold mbind at 1, Eff_bind at 1. simpl.
  assert (String.eqb sid "" = false) as -> by by apply String.eqb_neq.
  assert (String.eqb msg "" = false) as -> by by apply String.eqb_neq.
  simpl.
  unfold mbind at 1, Eff_bind at 1. rewrite getChatSession_run, Hs.
  unfold mbind at 1, Eff_bind at 1. rewrite addMessage_run. simpl.
  rewrite session_at_init_disk, Hs, init_disk_idem.
  unfold mbind at 1, Eff_bind at 1. rewrite getChatSession_run. simpl.
  rewrite session_at_write_same, init_disk_write.
  unfold try_catch at 1.
  unfold mbind at 1, Eff_bind at 1.
  rewrite !generateTherapyResponse_run. simpl.
  destruct (generateContent E (S (S (tick w))) _) as [e|reply]; simpl;
    [reflexivity|].
  unfold mbind at 1, Eff_bind at 1. rewrite !addMessage_run. simpl.
  rewrite session_at_write_same.
  unfold mbind at 1, Eff_bind at 1. rewrite !evaluateEveryFifth_run.
  reflexivity.
Qed.

End HandlerRuns.

Lemma due_spec n : due n = true <-> positive_multiple_of_5 n.
Proof.
  unfold due, positive_multiple_of_5.
  rewrite andb_true_iff, Nat.leb_le, Nat.eqb_eq. split.
  - intros [Hle Hmod]. exists (n / 5). 
    pose proof (Nat.div_mod_eq n 5). lia.
  - intros (k & Hk & ->). split; [lia|].
    rewrite Nat.mul_comm. by apply Nat.Div0.mod_mul.
Qed.

Lemma evaluate_calls_snoc_evaluate d t w conversation :
  evaluate_calls
    {| disk := d; tick := t;
       trace := trace w ++ [CallEvaluateMentalHealth conversation] |}
  = S (evaluate_calls w).
Proof.
  unfold evaluate_calls. simpl. rewrite filter_app, length_app. simpl. lia.
Qed.

Lemma evaluate_calls_snoc_generate d t w msgs :
  evaluate_calls
    {| disk := d; tick := t;
       trace := trace w ++ [CallGenerateTherapyResponse msgs] |}
  = evaluate_calls w.
Proof.
  unfold evaluate_calls. simpl. rewrite filter_app, length_app. simpl. lia.
Qed.

Lemma evaluate_calls_same d t w :
  evaluate_calls {| disk := d; tick := t; trace := trace w |} = evaluate_calls w.
Proof. reflexivity. Qed.

Lemma messages_at_write id id' s s' d :
  session_at id d = Some s -> messages s' = messages s ->
  messages <$> session_at id'
                 (write_file (Storage.getSessionPath id) (Json s') (init_disk d))
  = messages <$> session_at id' d.
Proof.
  intros Hs Hm. unfold session_at in *.
  destruct (decide (Storage.getSessionPath id = Storage.getSessionPath id'))
    as [Heq|Hne].
  - rewrite <- Heq.
    destruct d as [|l fs]; simpl in *; [by rewrite lookup_empty in Hs|].
    rewrite lookup_insert_eq.
    destruct (fs !! Storage.getSessionPath id) as [[s0|?]|]; try discriminate.
    injection Hs as ->. simpl. by rewrite Hm.
  - by rewrite files_of_write_other.
Qed.

Section HandlerEffects.
Context (E : Env).

(** What the periodic evaluation does to the world, whatever the provider
    answers. *)
Lemma evaluateEveryFifth_effect sessionId w :
  exists w',
    ChatMessageRoute.evaluateEveryFifth E sessionId w = (Return tt, w') /\
    evaluate_calls w'
      = evaluate_calls w
        + (if due (message_count sessionId (disk w)) then 1 else 0) /\
    (forall id', messages <$> session_at id' (disk w')
                 = messages <$> session_at id' (disk w)) /\
    (forall s e,
       session_at sessionId (disk w) = Some s ->
       fst (Gemini.evaluateMentalHealth E
              (ChatMessageRoute.transcript (messages s)) w) = Throw e ->
       disk w' = disk w).
Proof.
  eexists. split; [apply evaluateEveryFifth_run|].
  unfold message_count.
  destruct (session_at sessionId (disk w)) as [s|] eqn:Hs.
  - destruct (due (length (messages s))).
    + destruct (fst (Gemini.evaluateMentalHealth E _ w)) as [v|e0] eqn:Hev.
      * split; [|split].
        -- rewrite evaluate_calls_snoc_evaluate. lia.
        -- intros id'. simpl. by apply (messages_at_write _ _ s).
        -- intros s0 e [= <-]. rewrite Hev. discriminate.
      * split; [|split].
        -- rewrite evaluate_calls_snoc_evaluate. lia.
        -- intros id'. simpl. by rewrite session_at_init_disk.
        -- intros _ _ _ _. simpl. exact (session_at_Some_init _ _ _ Hs).
    + split; [|split].
      * unfold with_disk. rewrite evaluate_calls_same. lia.
      * intros id'. simpl. by rewrite session_at_init_disk.
      * intros _ _ _ _. simpl. exact (session_at_Some_init _ _ _ Hs).
  - split; [|split].
    + unfold with_disk. rewrite evaluate_calls_same. simpl. lia.
    + intros id'. simpl. by rewrite session_at_init_disk.
    + intros ? ? [=].
Qed.

Lemma POST_run_malformed w :
  ChatMessageRoute.POST E MalformedBody w
  = (Return (NextResponse_json (ErrorField "Failed to process message") 500), w).
Proof. reflexivity. Qed.

Lemma POST_run_missing_field body w :
  truthy (sessionId body) && truthy (message body) = false ->
  ChatMessageRoute.POST E (JsonBody body) w
  = (Return (NextResponse_json
               (ErrorField "Session ID and message are required") 400), w).
Proof.
  intros H. unfold ChatMessageRoute.POST, try_catch.
  unfold mbind, Eff_bind. simpl.
  destruct (truthy (sessionId body)), (truthy (message body)); try done.
Qed.

Lemma POST_run_not_found body w :
  truthy (sessionId body) && truthy (message body) = true ->
  session_at (field_text (sessionId body)) (disk w) = None ->
  ChatMessageRoute.POST E (JsonBody body) w
  = (Return (NextResponse_json (ErrorField "Session not found") 404),
     with_disk w (init_disk (disk w))).
Proof.
  intros [H1 H2]%andb_true_iff Hs. unfold ChatMessageRoute.POST, try_catch.
  unfold mbind at 1, Eff_bind at 1. simpl. rewrite H1, H2. simpl.
  unfold mbind at 1, Eff_bind at 1. rewrite getChatSession_run, Hs.
  reflexivity.
Qed.

Lemma truthy_Some field :
  truthy field = true -> exists s, field = Some s /\ s ≠ "".
Proof.
  destruct field as [s|]; simpl; [|done].
  intros H%negb_true_iff%String.eqb_neq. eauto.
Qed.

End HandlerEffects.

(** ** The chat message handler *)

Section HandlerClaims.
Context (E : Env).

Lemma evaluateEveryFifth_frame sessionId w p :
  p ≠ Storage.getSessionPath sessionId ->
  files_of (disk (snd (ChatMessageRoute.evaluateEveryFifth E sessionId w))) !! p
  = files_of (disk w) !! p.
Proof.
  intros Hp. rewrite evaluateEveryFifth_run. simpl.
  destruct (session_at sessionId (disk w)) as [s|];
    [|simpl; by rewrite files_of_init_disk].
  destruct (due (length (messages s)));
    [|simpl; by rewrite files_of_init_disk].
  destruct (fst (Gemini.evaluateMentalHealth E _ w)); simpl.
  - by rewrite files_of_write_other.
  - by rewrite files_of_init_disk.
Qed.

Lemma evaluate_calls_addMessage sessionId r c w :
  evaluate_calls (snd (Storage.addMessage E sessionId r c w)) = evaluate_calls w.
Proof.
  rewrite addMessage_run. simpl. by destruct (session_at sessionId (disk w)).
Qed.

Lemma evaluate_calls_generate msgs w :
  evaluate_calls (snd (Gemini.generateTherapyResponse E msgs w))
  = evaluate_calls w.
Proof.
  rewrite generateTherapyResponse_run. simpl.
  apply evaluate_calls_snoc_generate.
Qed.

Lemma message_count_after_evaluation sessionId w w' :
  ChatMessageRoute.evaluateEveryFifth E sessionId w = (Return tt, w') ->
  message_count sessionId (disk w') = message_count sessionId (disk w).
Proof.
  intros Hrun.
  destruct (evaluateEveryFifth_effect E sessionId w) as (w0 & Hw0 & _ & Hm & _).
  rewrite Hw0 in Hrun. injection Hrun as <-.
  unfold message_count. specialize (Hm sessionId).
  destruct (session_at sessionId (disk w0)), (session_at sessionId (disk w));
    simpl in Hm; congruence.
Qed.

(** C1. The block of lines 92-111 calls [evaluateMentalHealth] (once) exactly
    when the message count of the session it re-reads is a positive multiple
    of five, and never otherwise.  For the handler as a whole: a request
    triggers a call exactly when it is answered with the reply (status 200)
    and the session then holds a positive multiple of five messages. *)
Theorem evaluation_attempted_iff_positive_multiple_of_5 :
  forall (sid : string) (request : Request) (w : World),
    (exists w',
       ChatMessageRoute.evaluateEveryFifth E sid w = (Return tt, w') /\
       (evaluate_calls w' = evaluate_calls w \/
        evaluate_calls w' = S (evaluate_calls w)) /\
       (evaluate_calls w' = S (evaluate_calls w)
        <-> positive_multiple_of_5 (message_count sid (disk w)))) /\
    (exists resp w',
       ChatMessageRoute.POST E request w = (Return resp, w') /\
       (evaluate_calls w' = evaluate_calls w \/
        evaluate_calls w' = S (evaluate_calls w)) /\
       (evaluate_calls w' = S (evaluate_calls w)
        <-> status resp = 200%Z /\
            positive_multiple_of_5
              (message_count (requested_session request) (disk w')))).
Proof.
  intros sid0 request w. split.
  - destruct (evaluateEveryFifth_effect E sid0 w) as (w' & Hrun & Hc & _).
    exists w'. split; [done|]. rewrite <- due_spec.
    destruct (due (message_count sid0 (disk w)));
      (split; [lia|]); split; intros; try lia; done.
  - destruct request as [|body].
    { rewrite POST_run_malformed. do 2 eexists. split; [done|].
      split; [by left|]. simpl. split; [lia|]. intros [[=] _]. }
    destruct (truthy (sessionId body) && truthy (message body)) eqn:Hvalid.
    2:{ rewrite POST_run_missing_field by done. do 2 eexists. split; [done|].
        split; [by left|]. simpl. split; [lia|]. intros [[=] _]. }
    destruct (session_at (field_text (sessionId body)) (disk w)) as [s|] eqn:Hs.
    2:{ rewrite POST_run_not_found by done. do 2 eexists. split; [done|].
        unfold with_disk. rewrite evaluate_calls_same.
        split; [by left|]. simpl. split; [lia|]. intros [[=] _]. }
    apply andb_true_iff in Hvalid as [Hsid Hmsg].
    apply truthy_Some in Hsid as (sid & Hsid & Hne1).
    apply truthy_Some in Hmsg as (msg & Hmsg & Hne2).
    destruct body as [fsid fmsg]. simpl in *. subst fsid fmsg. simpl in Hs.
    destruct (POST_run_valid E sid msg w s Hne1 Hne2 Hs) as [_ ->].
    set (g := Gemini.generateTherapyResponse E _ _).
    assert (evaluate_calls (snd g) = evaluate_calls w) as Hg
      by (subst g; by rewrite evaluate_calls_generate, evaluate_calls_addMessage).
    destruct (fst g) as [reply|e].
    2:{ do 2 eexists. split; [done|]. rewrite Hg.
        split; [by left|]. split; [lia|]. intros [[=] _]. }
    set (w3 := snd (Storage.addMessage E sid assistant reply (snd g))).
    assert (evaluate_calls w3 = evaluate_calls w) as H3
      by (subst w3; by rewrite evaluate_calls_addMessage).
    destruct (evaluateEveryFifth_effect E sid w3) as (w' & Hrun & Hc & _).
    pose proof (message_count_after_evaluation sid w3 w' Hrun) as Hcount.
    rewrite Hrun. simpl. do 2 eexists. split; [done|].
    rewrite Hcount, <- due_spec. rewrite H3 in Hc.
    destruct (due _); (split; [lia|]); split; intros; try lia; naive_solver.
Qed.

(** C2. A request that names an existing session and carries a non-empty
    message, in a run where reply generation succeeds, is answered with the
    reply and leaves the session with exactly two more messages: the user's
    text followed by the assistant's reply, after the messages it had, which
    are unchanged.  No other file is written. *)
Theorem POST_appends_user_then_assistant :
  forall (sid msg : string) (w : World) (s s1 : ChatSession) (reply : string),
    sid ≠ "" -> msg ≠ "" ->
    session_at sid (disk w) = Some s ->
    let w1 := snd (Storage.addMessage E sid user msg w) in
    session_at sid (disk w1) = Some s1 ->
    fst (Gemini.generateTherapyResponse E
           (ChatMessageRoute.history (messages s1)) w1) = Return reply ->
    exists w' s' t1 t2,
      ChatMessageRoute.POST E
        (JsonBody {| sessionId := Some sid; message := Some msg |}) w
      = (Return (NextResponse_json (ResponseField reply) 200), w') /\
      session_at sid (disk w') = Some s' /\
      messages s'
      = (messages s
           ++ [ {| role := user; content := msg; timestamp := t1 |};
                {| role := assistant; content := reply; timestamp := t2 |} ])%list /\
      (forall p, p ≠ Storage.getSessionPath sid ->
                 files_of (disk w') !! p = files_of (disk w) !! p).
Proof.
  intros sid msg w s s1 reply Hne1 Hne2 Hs w1 Hs1 Hgen.
  destruct (POST_run_valid E sid msg w s Hne1 Hne2 Hs) as [Hs1' Hpost].
  fold w1 in Hs1', Hpost. rewrite Hs1 in Hs1'. injection Hs1' as ->.
  rewrite Hgen in Hpost. rewrite Hpost. clear Hpost.
  set (w3 := snd (Storage.addMessage E sid assistant reply
                    (snd (Gemini.generateTherapyResponse E _ w1)))).
  assert (disk w3 = write_file (Storage.getSessionPath sid)
            (Json (set_updatedAt
                     (push_message
                        (set_updatedAt
                           (push_message s {| role := user; content := msg;
                                              timestamp := Date_now E (tick w) |})
                           (Date_now E (S (tick w))))
                        {| role := assistant; content := reply;
                           timestamp := Date_now E (S (S (S (tick w)))) |})
                     (Date_now E (S (S (S (S (tick w))))))))
            (init_disk (disk w))) as Hd3.
  { subst w3 w1. rewrite generateTherapyResponse_run. simpl.
    rewrite !addMessage_run, Hs. simpl. rewrite session_at_write_same. simpl.
    destruct (disk w); simpl; by rewrite ?insert_insert_eq. }
  destruct (evaluateEveryFifth_effect E sid w3) as (w' & Hrun & _ & Hm & _).
  pose proof (evaluateEveryFifth_frame sid w3) as Hframe.
  rewrite Hrun in *. simpl in *.
  pose proof (Hm sid) as Hsid. rewrite Hd3, session_at_write_same in Hsid.
  destruct (session_at sid (disk w')) as [s'|] eqn:Hs'; [|discriminate].
  simpl in Hsid. injection Hsid as Hsid.
  exists w', s', (Date_now E (tick w)), (Date_now E (S (S (S (tick w))))).
  split; [done|]. split; [done|]. split.
  - rewrite Hsid. by rewrite <- app_assoc.
  - intros p Hp. rewrite Hframe, Hd3 by done. by rewrite files_of_write_other.
Qed.

(** C3. When reply generation fails, the handler answers 500 and writes
    nothing more: the session holds the messages it had followed by the
    user's message as its last entry, no assistant message has been
    appended, and [evaluateMentalHealth] has not been called. *)
Theorem POST_reply_failure_keeps_user_turn :
  forall (sid msg : string) (w : World) (s s1 : ChatSession) (e : js_error),
    sid ≠ "" -> msg ≠ "" ->
    session_at sid (disk w) = Some s ->
    let w1 := snd (Storage.addMessage E sid user msg w) in
    session_at sid (disk w1) = Some s1 ->
    fst (Gemini.generateTherapyResponse E
           (ChatMessageRoute.history (messages s1)) w1) = Throw e ->
    exists w' t1,
      ChatMessageRoute.POST E
        (JsonBody {| sessionId := Some sid; message := Some msg |}) w
      = (Return (NextResponse_json
                   (ErrorField "Failed to generate response from AI") 500), w') /\
      disk w' = disk w1 /\
      session_at sid (disk w') = Some s1 /\
      messages s1
      = (messages s ++ [ {| role := user; content := msg; timestamp := t1 |} ])%list /\
      last (messages s1)
      = Some {| role := user; content := msg; timestamp := t1 |} /\
      evaluate_calls w' = evaluate_calls w.
Proof.
  intros sid msg w s s1 e Hne1 Hne2 Hs w1 Hs1 Hgen.
  destruct (POST_run_valid E sid msg w s Hne1 Hne2 Hs) as [Hs1' Hpost].
  fold w1 in Hs1', Hpost. rewrite Hs1 in Hs1'. injection Hs1' as ->.
  rewrite Hgen in Hpost. rewrite Hpost. clear Hpost.
  do 2 eexists. split; [reflexivity|].
  split; [by rewrite generateTherapyResponse_run|].
  split; [by rewrite generateTherapyResponse_run|].
  split; [reflexivity|]. split; [simpl; apply last_snoc|].
  subst w1. by rewrite evaluate_calls_generate, evaluate_calls_addMessage.
Qed.




End HandlerClaims.

(** ** Concrete runs *)

(** Against C5 as worded in the specification: with one good and one
    unparseable record in the folder, the listing is empty and the good
    session is not returned. *)
Lemma getAllSessions_one_bad_record_empties_listing :
  ~ (forall (w : World) (p q : string) (s : ChatSession) (raw : string),
       files_of (disk w) !! p = Some (Json s) -> endsWith p ".json" = true ->
       files_of (disk w) !! q = Some (Garbage raw) -> endsWith q ".json" = true ->
       exists L, fst (Storage.getAllSessions w) = Return L /\ s ∈ L).
Proof.
  intros H.
  destruct (H mixed_world "anna.json" "broken.json" anna "{ not json"
              eq_refl eq_refl eq_refl eq_refl) as (L & HL & Hin).
  vm_compute in HL. injection HL as <-. by apply elem_of_nil in Hin.
Qed.

(** Against C6 as worded in the specification: no observation on the thrown
    error separates an answer without JSON from a provider failure. *)
Lemma evaluateMentalHealth_errors_indistinguishable :
  ~ (exists is_format_error : js_error -> bool,
       forall (E : Env) (conversation : string) (w : World) (e : js_error),
         fst (Gemini.evaluateMentalHealth E conversation w) = Throw e ->
         (is_format_error e = true <->
          exists text,
            generateContent E (tick w) (Gemini.evaluationPrompt E conversation)
              = inr text /\ ~ has_braces text)).
Proof.
  intros (classify & H).
  pose proof (H steadyEnv "User: hello" blank_world evaluation_failed eq_refl)
    as [_ Hprose].
  pose proof (H frozenEnv "User: hello" blank_world evaluation_failed eq_refl)
    as [Hdown _].
  assert (classify evaluation_failed = true) as Hc.
  { apply Hprose. exists "I hear you. Tell me more.".
    split; [reflexivity|]. by apply jsonMatch_None_iff. }
  destruct (Hdown Hc) as (text & Habs & _). discriminate.
Qed.

(** C9. The identifier is made of the clock reading and the random suffix
    only, and nothing checks it against the files already there.  With the
    clock stopped and the same suffix drawn twice, a creation, a message
    appended to the new session and a second creation: both creations return
    the same identifier, and the second replaces the record of the first,
    whose message is gone. *)
Theorem createChatSession_collision :
  let first := Storage.createChatSession frozenEnv blank_world in
  let talked :=
    snd (Storage.addMessage frozenEnv "session_1700000000000_k3f9x2a" user
           "I feel anxious today" (snd first)) in
  let second := Storage.createChatSession frozenEnv talked in
  fst first = Return "session_1700000000000_k3f9x2a" /\
  message_count "session_1700000000000_k3f9x2a" (disk talked) = 1 /\
  fst second = Return "session_1700000000000_k3f9x2a" /\
  message_count "session_1700000000000_k3f9x2a" (disk (snd second)) = 0 /\
  fst (Storage.getAllSessions (snd second))
  = Return [ {| id := "session_1700000000000_k3f9x2a"; messages := [];
                evaluation := None; createdAt := 1700000000000;
                updatedAt := 1700000000000 |} ].
Proof. vm_compute. repeat split. Qed.

Lemma createChatSession_ids_differ_when_components_differ_witness :
  "session_1700000000000_k3f9x2a" ≠ "session_1700000000004_k3f9x2a".
Proof.
  apply (createChatSession_ids_differ_when_components_differ steadyEnv
           blank_world (snd (Storage.createChatSession steadyEnv blank_world))
           (snd (Storage.createChatSession steadyEnv blank_world))
           (snd (Storage.createChatSession steadyEnv
                   (snd (Storage.createChatSession steadyEnv blank_world)))));
    [reflexivity|reflexivity|].
  left. discriminate.
Defined.

Lemma getAllSessions_all_or_nothing_witness :
  exists L,
    Storage.getAllSessions anna_world = (Return L, anna_world) /\
    (forall s, s ∈ L <->
       exists p, endsWith p ".json" = true /\ anna_files !! p = Some (Json s)) /\
    StronglySorted descending L.
Proof.
  destruct (getAllSessions_all_or_nothing anna_world true anna_files eq_refl)
    as (L & Hrun & _ & _ & Hall).
  exists L. split; [exact Hrun|].
  destruct Hall as (Hin & _ & Hsorted); [reflexivity| |by split].
  intros p data _ Hp. unfold anna_files in Hp.
  apply lookup_singleton_Some in Hp as [_ <-]. eauto.
Defined.

Lemma addMessage_updateEvaluation_missing_or_present_witness :
  (fst (Storage.addMessage steadyEnv "ghost" user "hello" anna_world) = Return tt /\
   snd (Storage.addMessage steadyEnv "ghost" user "hello" anna_world) = anna_world /\
   snd (Storage.updateEvaluation "ghost" None anna_world) = anna_world) /\
  (exists s',
     session_at "anna"
       (disk (snd (Storage.addMessage steadyEnv "anna" user "hello" anna_world)))
     = Some s' /\
     messages s'
     = (three_messages
          ++ [ {| role := user; content := "hello";
                  timestamp := 1700000000000 |} ])%list /\
     updatedAt s' = 1700000000001%Z /\
     id s' = "anna" /\ createdAt s' = 900%Z /\ evaluation s' = None) /\
  (exists s',
     session_at "anna"
       (disk (snd (Storage.updateEvaluation "anna"
                     (Some {| assessment := calm; evaluatedAt := 5000 |})
                     anna_world)))
     = Some s' /\
     evaluation s' = Some {| assessment := calm; evaluatedAt := 5000 |} /\
     id s' = "anna" /\ messages s' = three_messages /\
     createdAt s' = 900%Z /\ updatedAt s' = 1002%Z).
Proof.
  destruct (addMessage_updateEvaluation_missing_or_present steadyEnv "ghost"
              anna_world) as [Hmissing _].
  destruct (addMessage_updateEvaluation_missing_or_present steadyEnv "anna"
              anna_world) as [_ Hpresent].
  split.
  - destruct (Hmissing eq_refl user "hello" None) as (Ha & _ & _ & _ & Hsame).
    destruct Hsame as [Hwa Hwu]; [discriminate|]. by repeat split.
  - destruct (Hpresent anna eq_refl user "hello"
                (Some {| assessment := calm; evaluatedAt := 5000 |}))
      as (_ & Hadd & _ & _ & Hupd & _).
    split; [exact Hadd|exact Hupd].
Defined.

Lemma deleteSession_then_not_found_witness :
  fst (Storage.deleteSession "anna" anna_world) = Return true /\
  fst (Storage.getChatSession "anna" (snd (Storage.deleteSession "anna" anna_world)))
  = Return None /\
  snd (Storage.deleteSession "ghost" anna_world) = anna_world.
Proof.
  destruct (deleteSession_then_not_found "anna" anna_world) as (_ & Hiff & Hgone & _).
  destruct (deleteSession_then_not_found "ghost" anna_world) as (_ & _ & _ & Hkeep).
  assert (fst (Storage.deleteSession "anna" anna_world) = Return true) as Htrue
    by (apply Hiff; by exists (Json anna)).
  split; [exact Htrue|]. split.
  - by destruct (Hgone Htrue) as (_ & Hget & _).
  - apply Hkeep. reflexivity.
Defined.

Lemma updateEvaluation_changes_only_evaluation_witness :
  exists s',
    session_at "anna" (disk (snd (Storage.updateEvaluation "anna" None anna_world)))
    = Some s' /\
    evaluation s' = None /\ id s' = "anna" /\ messages s' = three_messages /\
    createdAt s' = 900%Z /\ updatedAt s' = 1002%Z.
Proof.
  destruct (updateEvaluation_changes_only_evaluation steadyEnv "anna" None
              anna_world anna eq_refl) as [Hfields _].
  exact Hfields.
Defined.

Lemma POST_appends_user_then_assistant_witness :
  exists w' s' t1 t2,
    ChatMessageRoute.POST steadyEnv anna_request anna_world
    = (Return (NextResponse_json (ResponseField "I hear you. Tell me more.") 200), w') /\
    session_at "anna" (disk w') = Some s' /\
    messages s'
    = (three_messages
         ++ [ {| role := user; content := "I cannot sleep"; timestamp := t1 |};
              {| role := assistant; content := "I hear you. Tell me more.";
                 timestamp := t2 |} ])%list /\
    (forall p, p ≠ Storage.getSessionPath "anna" ->
               files_of (disk w') !! p = files_of (disk anna_world) !! p).
Proof.
  apply (POST_appends_user_then_assistant steadyEnv "anna" "I cannot sleep"
           anna_world anna (anna_asked 1700000000000 1700000000001));
    [discriminate|discriminate|reflexivity|reflexivity|reflexivity].
Defined.

Lemma POST_reply_failure_keeps_user_turn_witness :
  exists w' t1,
    ChatMessageRoute.POST frozenEnv anna_request anna_world
    = (Return (NextResponse_json
                 (ErrorField "Failed to generate response from AI") 500), w') /\
    disk w'
    = disk (snd (Storage.addMessage frozenEnv "anna" user "I cannot sleep" anna_world)) /\
    session_at "anna" (disk w')
    = Some (anna_asked 1700000000000 1700000000000) /\
    messages (anna_asked 1700000000000 1700000000000)
    = (three_messages
         ++ [ {| role := user; content := "I cannot sleep"; timestamp := t1 |} ])%list /\
    last (messages (anna_asked 1700000000000 1700000000000))
    = Some {| role := user; content := "I cannot sleep"; timestamp := t1 |} /\
    evaluate_calls w' = evaluate_calls anna_world.
Proof.
  apply (POST_reply_failure_keeps_user_turn frozenEnv "anna" "I cannot sleep"
           anna_world anna (anna_asked 1700000000000 1700000000000)
           (Error "Failed to generate response: 503 Service Unavailable"));
    [discriminate|discriminate|reflexivity|reflexivity|reflexivity].
Defined.


Example fifth_message_triggers_failed_evaluation :
  let w' := snd (ChatMessageRoute.POST steadyEnv anna_request anna_world) in
  message_count "anna" (disk w') = 5 /\ evaluate_calls w' = 1 /\
  (evaluation <$> session_at "anna" (disk w')) = Some None.
Proof. vm_compute. done. Qed.

(** * Further properties of the code *)

(** ** File names *)

Lemma string_length_append a b :
  String.length (a +:+ b) = String.length a + String.length b.
Proof.
  induction a as [|c a IH]; [done|]. rewrite append_cons. simpl. by rewrite IH.
Qed.

Lemma substring_whole b : substring 0 (String.length b) b = b.
Proof. induction b as [|c b IH]; simpl; [done|]. by rewrite IH. Qed.

Lemma substring_skip a b :
  substring (String.length a) (String.length b) (a +:+ b) = b.
Proof.
  induction a as [|c a IH]; [apply substring_whole|].
  rewrite append_cons. simpl. exact IH.
Qed.

Lemma endsWith_append a b : endsWith (a +:+ b) b = true.
Proof.
  unfold endsWith. rewrite string_length_append.
  replace (String.length a + String.length b - String.length b)
    with (String.length a) by lia.
  rewrite substring_skip, String.eqb_refl, andb_true_r.
  apply Nat.leb_le. lia.
Qed.

Lemma append_inj_r suffix : forall a b, a +:+ suffix = b +:+ suffix -> a = b.
Proof.
  induction a as [|c a IH]; intros [|c' b] Heq.
  - done.
  - apply (f_equal String.length) in Heq.
    rewrite append_nil, append_cons in Heq. simpl in Heq.
    rewrite string_length_append in Heq. lia.
  - apply (f_equal String.length) in Heq.
    rewrite append_nil, append_cons in Heq. simpl in Heq.
    rewrite string_length_append in Heq. lia.
  - rewrite !append_cons in Heq. injection Heq as -> Heq.
    by rewrite (IH b Heq).
Qed.

Lemma getSessionPath_inj a b :
  Storage.getSessionPath a = Storage.getSessionPath b -> a = b.
Proof. apply append_inj_r. Qed.

Lemma getSessionPath_endsWith a : endsWith (Storage.getSessionPath a) ".json" = true.
Proof. apply endsWith_append. Qed.

(** ** The invariant of the sessions folder *)

Lemma well_named_init_disk d : well_named (init_disk d) <-> well_named d.
Proof. unfold well_named. by rewrite files_of_init_disk. Qed.

Lemma well_named_write d s :
  well_named d ->
  well_named (write_file (Storage.getSessionPath (id s)) (Json s) (init_disk d)).
Proof.
  intros Hd p s0 Hp.
  destruct (decide (Storage.getSessionPath (id s) = p)) as [<-|Hne].
  - destruct d; simpl in Hp; rewrite lookup_insert_eq in Hp; congruence.
  - rewrite files_of_write_other in Hp by done. by apply Hd.
Qed.

Lemma well_named_unlink p d : well_named d -> well_named (unlink_file p d).
Proof.
  intros Hd q s Hq. apply Hd. destruct d as [|l fs]; simpl in *; [done|].
  by apply lookup_delete_Some in Hq as [_ Hq].
Qed.

Lemma well_named_session_at sid d s :
  well_named d -> session_at sid d = Some s ->
  Storage.getSessionPath sid = Storage.getSessionPath (id s).
Proof.
  unfold session_at. intros Hd Hs.
  destruct (files_of d !! Storage.getSessionPath sid) as [[s0|?]|] eqn:Hf;
    try discriminate.
  injection Hs as ->. by apply Hd.
Qed.

Lemma deleteSession_run_unlink sessionId w :
  snd (Storage.deleteSession sessionId w)
  = with_disk w (unlink_file (Storage.getSessionPath sessionId) (disk w)).
Proof.
  rewrite deleteSession_run.
  destruct (files_of (disk w) !! Storage.getSessionPath sessionId) eqn:Hf;
    simpl; [done|].
  destruct w as [[|l fs] t tr]; simpl in *; [done|].
  unfold with_disk. simpl. by rewrite delete_id.
Qed.

Lemma deleteEach_run sessions :
  forall w,
    AdminSessionsRoute.deleteEach sessions w
    = (Return tt,
       with_disk w
         (foldl (fun d s => unlink_file (Storage.getSessionPath (id s)) d)
                (disk w) sessions)).
Proof.
  induction sessions as [|s rest IH]; intros w; simpl.
  - by rewrite with_disk_same.
  - unfold mbind, Eff_bind.
    pose proof (deleteSession_run_unlink (id s) w) as Hrun.
    destruct (Storage.deleteSession (id s) w) as [r w1] eqn:Hdel.
    assert (exists b, r = Return b) as [b ->].
    { pose proof (deleteSession_run (id s) w) as H. rewrite Hdel in H.
      destruct (files_of (disk w) !! _); injection H as -> _; eauto. }
    simpl in Hrun. subst w1. rewrite IH. reflexivity.
Qed.

Lemma well_named_foldl_unlink sessions :
  forall d, well_named d ->
    well_named (foldl (fun d s => unlink_file (Storage.getSessionPath (id s)) d)
                      d sessions).
Proof.
  induction sessions as [|s rest IH]; intros d Hd; simpl; [done|].
  by apply IH, well_named_unlink.
Qed.

Lemma AdminSessionsRoute_DELETE_run w :
  AdminSessionsRoute.DELETE w
  = (Return (RouteResponse_json (MessageField "All sessions cleared") 200),
     with_disk w
       (foldl (fun d s => unlink_file (Storage.getSessionPath (id s)) d)
              (init_disk (disk w)) (listing (disk w)))).
Proof.
  unfold AdminSessionsRoute.DELETE, try_catch.
  unfold mbind at 1, Eff_bind at 1. rewrite getAllSessions_run.
  unfold mbind at 1, Eff_bind at 1. rewrite deleteEach_run. reflexivity.
Qed.

Section InvariantSteps.
Context (E : Env).

Lemma well_named_createChatSession w :
  well_named (disk w) -> well_named (disk (snd (Storage.createChatSession E w))).
Proof.
  intros Hw. rewrite createChatSession_run. cbv zeta. simpl.
  match goal with
  | |- well_named (write_file _ (Json ?s) _) => exact (well_named_write _ s Hw)
  end.
Qed.

Lemma well_named_addMessage sid r c w :
  well_named (disk w) -> well_named (disk (snd (Storage.addMessage E sid r c w))).
Proof.
  intros Hw. rewrite addMessage_run. simpl.
  destruct (session_at sid (disk w)) as [s|] eqn:Hs; simpl.
  - rewrite (well_named_session_at sid _ s Hw Hs).
    match goal with
    | |- well_named (write_file _ (Json ?s') _) => exact (well_named_write _ s' Hw)
    end.
  - by apply well_named_init_disk.
Qed.

Lemma well_named_updateEvaluation sid ev w :
  well_named (disk w) -> well_named (disk (snd (Storage.updateEvaluation sid ev w))).
Proof.
  intros Hw. rewrite updateEvaluation_run. simpl.
  destruct (session_at sid (disk w)) as [s|] eqn:Hs; simpl.
  - rewrite (well_named_session_at sid _ s Hw Hs).
    exact (well_named_write _ (set_evaluation s ev) Hw).
  - by apply well_named_init_disk.
Qed.

Lemma well_named_deleteSession sid w :
  well_named (disk w) -> well_named (disk (snd (Storage.deleteSession sid w))).
Proof.
  intros Hw. rewrite deleteSession_run_unlink. simpl. by apply well_named_unlink.
Qed.

Lemma disk_generateTherapyResponse msgs w :
  disk (snd (Gemini.generateTherapyResponse E msgs w)) = disk w.
Proof. by rewrite generateTherapyResponse_run. Qed.

Lemma well_named_evaluateEveryFifth sid w :
  well_named (disk w) ->
  well_named (disk (snd (ChatMessageRoute.evaluateEveryFifth E sid w))).
Proof.
  intros Hw. rewrite evaluateEveryFifth_run. simpl.
  destruct (session_at sid (disk w)) as [s|] eqn:Hs;
    [|by apply well_named_init_disk].
  destruct (due (length (messages s))); [|by apply well_named_init_disk].
  destruct (fst (Gemini.evaluateMentalHealth E _ w)) as [v|e]; simpl.
  - rewrite (well_named_session_at sid _ s Hw Hs).
    match goal with
    | |- well_named (write_file _ (Json ?s') _) => exact (well_named_write _ s' Hw)
    end.
  - by apply well_named_init_disk.
Qed.

Lemma well_named_POST request w :
  well_named (disk w) ->
  well_named (disk (snd (ChatMessageRoute.POST E request w))).
Proof.
  intros Hw. destruct request as [|body]; [done|].
  destruct (truthy (sessionId body) && truthy (message body)) eqn:Hvalid;
    [|by rewrite POST_run_missing_field].
  destruct (session_at (field_text (sessionId body)) (disk w)) as [s|] eqn:Hs.
  2:{ rewrite POST_run_not_found by done. by apply well_named_init_disk. }
  apply andb_true_iff in Hvalid as [Hsid Hmsg].
  apply truthy_Some in Hsid as (sid & Hsid & Hne1).
  apply truthy_Some in Hmsg as (msg & Hmsg & Hne2).
  destruct body as [fsid fmsg]. simpl in *. subst fsid fmsg. simpl in Hs.
  destruct (POST_run_valid E sid msg w s Hne1 Hne2 Hs) as [_ ->].
  set (g := Gemini.generateTherapyResponse E _ _).
  assert (well_named (disk (snd g))) as Hg.
  { subst g. rewrite disk_generateTherapyResponse. by apply well_named_addMessage. }
  destruct (fst g) as [reply|e]; simpl; [|done].
  by apply well_named_evaluateEveryFifth, well_named_addMessage.
Qed.

End InvariantSteps.

Lemma well_named_DELETE w :
  well_named (disk w) -> well_named (disk (snd (AdminSessionsRoute.DELETE w))).
Proof.
  intros Hw. rewrite AdminSessionsRoute_DELETE_run. simpl.
  by apply well_named_foldl_unlink, well_named_init_disk.
Qed.

Lemma well_named_blank : well_named NoDir.
Proof. intros p s Hp. simpl in Hp. by rewrite lookup_empty in Hp. Qed.

Lemma well_named_anna : well_named (disk anna_world).
Proof.
  intros p s Hp. simpl in Hp. unfold anna_files in Hp.
  by apply lookup_singleton_Some in Hp as [<- [= <-]].
Qed.

(** X1. Every record of the folder lies in the file named after its own
    [id]: the property holds of the folder before its creation and is kept by
    every operation that writes (creation, append, evaluation update,
    deletion, the chat handler and the bulk delete).  Under it the record
    [getChatSession] returns for an identifier is the one whose own [id]
    names the file that was read. *)
Theorem well_named_is_kept :
  forall (E : Env) (w : World),
    well_named (disk w) ->
    well_named (disk (snd (Storage.createChatSession E w))) /\
    (forall sid r c, well_named (disk (snd (Storage.addMessage E sid r c w)))) /\
    (forall sid ev, well_named (disk (snd (Storage.updateEvaluation sid ev w)))) /\
    (forall sid, well_named (disk (snd (Storage.deleteSession sid w)))) /\
    (forall request, well_named (disk (snd (ChatMessageRoute.POST E request w)))) /\
    well_named (disk (snd (AdminSessionsRoute.DELETE w))) /\
    (forall sid s, fst (Storage.getChatSession sid w) = Return (Some s) ->
       Storage.getSessionPath (id s) = Storage.getSessionPath sid).
Proof.
  intros E w Hw.
  split; [by apply well_named_createChatSession|].
  split; [intros; by apply well_named_addMessage|].
  split; [intros; by apply well_named_updateEvaluation|].
  split; [intros; by apply well_named_deleteSession|].
  split; [intros; by apply well_named_POST|].
  split; [by apply well_named_DELETE|].
  intros sid s. rewrite getChatSession_run. simpl. intros [= Hs].
  symmetry. by apply (well_named_session_at sid (disk w)).
Qed.

Lemma well_named_is_kept_witness :
  well_named (disk (snd (ChatMessageRoute.POST steadyEnv anna_request anna_world))) /\
  well_named (disk (snd (Storage.createChatSession steadyEnv blank_world))).
Proof.
  split.
  - apply (well_named_is_kept steadyEnv anna_world well_named_anna).
  - apply (well_named_is_kept steadyEnv blank_world well_named_blank).
Defined.

(** X2. When [createChatSession] returns, its identifier is not empty and
    an empty session is stored under it: no messages, no evaluation, the
    identifier as [id], and the two time stamps read from the clock.
    Whatever was stored under that name before is replaced; every other file
    is untouched. *)
Theorem createChatSession_then_getChatSession :
  forall (E : Env) (w w' : World) (sid : string),
    Storage.createChatSession E w = (Return sid, w') ->
    sid ≠ "" /\
    (exists s,
       fst (Storage.getChatSession sid w') = Return (Some s) /\
       id s = sid /\ messages s = [] /\ evaluation s = None /\
       createdAt s = Date_now E (S (S (tick w))) /\
       updatedAt s = Date_now E (S (S (S (tick w))))) /\
    (forall p, p ≠ Storage.getSessionPath sid ->
               files_of (disk w') !! p = files_of (disk w) !! p).
Proof.
  intros E w w' sid. rewrite createChatSession_run. cbv zeta.
  intros [= <- <-]. split; [done|].
  rewrite getChatSession_run. simpl. rewrite session_at_write_same.
  split; [eexists; by repeat split|].
  intros p Hp. by rewrite files_of_write_other.
Qed.

Lemma createChatSession_then_getChatSession_witness :
  "session_1700000000000_k3f9x2a" ≠ "" /\
  (exists s,
     fst (Storage.getChatSession "session_1700000000000_k3f9x2a"
            (snd (Storage.createChatSession steadyEnv anna_world)))
     = Return (Some s) /\
     id s = "session_1700000000000_k3f9x2a" /\ messages s = [] /\
     evaluation s = None /\
     createdAt s = 1700000000002%Z /\ updatedAt s = 1700000000003%Z) /\
  (forall p, p ≠ Storage.getSessionPath "session_1700000000000_k3f9x2a" ->
             files_of (disk (snd (Storage.createChatSession steadyEnv anna_world))) !! p
             = files_of (disk anna_world) !! p).
Proof.
  apply (createChatSession_then_getChatSession steadyEnv anna_world).
  reflexivity.
Defined.

(** X3. The read operations ([getChatSession], [getAllSessions],
    [getSessionStats] and the two admin [GET] handlers) never change a file,
    read no clock and call no AI service. *)
Theorem reads_change_nothing :
  forall (sid : string) (w : World),
    let unchanged (w' : World) :=
      files_of (disk w') = files_of (disk w) /\
      tick w' = tick w /\ trace w' = trace w in
    unchanged (snd (Storage.getChatSession sid w)) /\
    unchanged (snd (Storage.getAllSessions w)) /\
    unchanged (snd (Storage.getSessionStats w)) /\
    unchanged (snd (AdminSessionRoute.GET sid w)) /\
    unchanged (snd (AdminSessionsRoute.GET w)).
Proof.
  intros sid w unchanged. subst unchanged. cbv beta.
  unfold Storage.getSessionStats, AdminSessionsRoute.GET, try_catch, mbind,
    Eff_bind.
  rewrite getChatSession_run, getAllSessions_run, AdminSessionRoute_GET_run.
  simpl. rewrite files_of_init_disk. done.
Qed.

(** ** More on the listing *)

Lemma listing_elem_of fs s :
  all_parse fs ->
  s ∈ listing (Dir true fs)
  <-> exists p, endsWith p ".json" = true /\ fs !! p = Some (Json s).
Proof.
  intros Hok. unfold listing. simpl.
  destruct (parse_all_total fs (elements (dom fs))) as [l Hl].
  { intros p data _. apply Hok. }
  { intros p Hp%elem_of_elements. by apply elem_of_dom. }
  rewrite Hl. destruct (parse_all_Some _ _ _ Hl) as [_ Hin].
  rewrite Array_sort_perm, Hin. split.
  - intros (p & _ & He & Hp). eauto.
  - intros (p & He & Hp). exists p. split; [|done].
    apply elem_of_elements, elem_of_dom. eauto.
Qed.

Lemma listing_sorted d : StronglySorted descending (listing d).
Proof.
  unfold listing. destruct (init_disk d) as [|[|] fs]; try constructor.
  destruct (parse_all fs (elements (dom fs))); [|constructor].
  apply Array_sort_descending.
Qed.

Lemma listing_corrupt l fs p raw :
  endsWith p ".json" = true -> fs !! p = Some (Garbage raw) ->
  listing (Dir l fs) = [].
Proof.
  intros He Hp. unfold listing. simpl. destruct l; [|done].
  erewrite parse_all_None; eauto.
  apply elem_of_elements, elem_of_dom. eauto.
Qed.

Lemma parse_all_no_json fs names :
  (forall p, p ∈ names -> endsWith p ".json" = false) ->
  parse_all fs names = Some [].
Proof.
  induction names as [|p rest IH]; simpl; intros H; [done|].
  rewrite (H p) by left. apply IH. intros q Hq. apply H. by right.
Qed.

Lemma listing_no_json l fs :
  (forall p, endsWith p ".json" = true -> fs !! p = None) ->
  listing (Dir l fs) = [].
Proof.
  intros H. unfold listing. simpl. destruct l; [|done].
  rewrite parse_all_no_json; [done|].
  intros p Hp%elem_of_elements%elem_of_dom.
  destruct (endsWith p ".json") eqn:He; [|done].
  rewrite (H p He) in Hp. by destruct Hp.
Qed.

(** ** Statistics *)





(** ** The admin list and bulk delete *)

Lemma AdminSessionsRoute_GET_run w :
  AdminSessionsRoute.GET w
  = (Return (RouteResponse_json
               (SessionsField (map AdminSessionsRoute.summarize (listing (disk w))))
               200),
     with_disk w (init_disk (disk w))).
Proof.
  unfold AdminSessionsRoute.GET, try_catch, mbind, Eff_bind.
  by rewrite getAllSessions_run.
Qed.

(** X5. When [GET /api/admin/sessions] answers with a list, it is one summary
    per session of [getAllSessions], in the same order (identifier and
    number of messages and evaluation of each), hence most recently updated
    first, and the status is 200.  If, on an existing folder, a [.json]
    record does not parse, that list is empty and nothing has changed. *)
Theorem admin_list_is_sorted_summaries :
  forall (w w' : World) (sums : list SessionSummary) (code : Z),
    AdminSessionsRoute.GET w
    = (Return (RouteResponse_json (SessionsField sums) code), w') ->
    code = 200%Z /\
    (exists L,
       fst (Storage.getAllSessions w) = Return L /\
       map summary_id sums = map id L /\
       map messageCount sums = map (fun s => length (messages s)) L /\
       map summary_evaluation sums = map evaluation L) /\
    StronglySorted (fun a b => (summary_updatedAt b <= summary_updatedAt a)%Z)
      sums /\
    (forall l fs p raw,
       disk w = Dir l fs -> endsWith p ".json" = true ->
       fs !! p = Some (Garbage raw) ->
       sums = [] /\ w' = w).
Proof.
  intros w w' sums code. rewrite AdminSessionsRoute_GET_run.
  intros [= <- <- <-]. split; [done|]. split; [|split].
  - exists (listing (disk w)). rewrite getAllSessions_run. simpl.
    split; [done|]. by rewrite !map_map.
  - pose proof (listing_sorted (disk w)) as Hs.
    induction Hs as [|s l Hl IH Hall]; simpl; constructor; [done|].
    apply Forall_map. exact Hall.
  - intros l fs p raw Hd He Hp. rewrite Hd.
    rewrite (listing_corrupt l fs p raw He Hp). simpl.
    split; [done|]. rewrite <- Hd. apply with_disk_same.
Qed.

Lemma admin_list_is_sorted_summaries_witness :
  AdminSessionsRoute.GET mixed_world
  = (Return (RouteResponse_json (SessionsField []) 200), mixed_world) /\
  exists sums,
    fst (AdminSessionsRoute.GET pair_world)
    = Return (RouteResponse_json (SessionsField sums) 200) /\
    map summary_id sums = ["bob"; "anna"] /\
    map messageCount sums = [0; 3].
Proof.
  split.
  - destruct (admin_list_is_sorted_summaries mixed_world
                (with_disk mixed_world (init_disk (disk mixed_world)))
                [] 200 eq_refl) as (_ & _ & _ & Hbad).
    destruct (Hbad true (<[ "broken.json" := Garbage "{ not json" ]> anna_files)
                "broken.json" "{ not json" eq_refl eq_refl eq_refl) as [_ Hw].
    by rewrite AdminSessionsRoute_GET_run, Hw.
  - exists (map AdminSessionsRoute.summarize (listing (disk pair_world))).
    by rewrite AdminSessionsRoute_GET_run.
Defined.

Lemma foldl_unlink_shape sessions :
  forall l fs, exists fs',
    foldl (fun d s => unlink_file (Storage.getSessionPath (id s)) d)
          (Dir l fs) sessions = Dir l fs'.
Proof.
  induction sessions as [|s rest IH]; intros l fs; simpl; eauto.
Qed.

Lemma foldl_unlink_lookup sessions :
  forall d p,
    files_of (foldl (fun d s => unlink_file (Storage.getSessionPath (id s)) d)
                    d sessions) !! p
    = if decide (p ∈ map (fun s => Storage.getSessionPath (id s)) sessions)
      then None else files_of d !! p.
Proof.
  induction sessions as [|s rest IH]; intros d p; cbn [foldl map].
  - rewrite decide_False; [done|]. by intros ?%elem_of_nil.
  - rewrite IH.
    assert (files_of (unlink_file (Storage.getSessionPath (id s)) d) !! p
            = if decide (p = Storage.getSessionPath (id s)) then None
              else files_of d !! p) as ->.
    { destruct d as [|l fs]; simpl.
      - rewrite lookup_empty. by case_decide.
      - case_decide as Hp; [subst; apply lookup_delete_eq|].
        by rewrite lookup_delete_ne. }
    repeat case_decide; subst; try done; exfalso; set_solver.
Qed.

(** X6. On a folder that can be enumerated, where every [.json] file holds a
    session stored under its own [id], [DELETE /api/admin/sessions] answers
    200, removes every [.json] file and no other file, and a listing made
    afterwards is empty. *)
Theorem admin_delete_clears_every_session :
  forall (w : World) (fs : gmap string file_data),
    disk w = Dir true fs ->
    all_parse fs ->
    well_named (disk w) ->
    exists w',
      AdminSessionsRoute.DELETE w
      = (Return (RouteResponse_json (MessageField "All sessions cleared") 200), w') /\
      (forall p, files_of (disk w') !! p
                 = if endsWith p ".json" then None else fs !! p) /\
      fst (Storage.getAllSessions w') = Return [].
Proof.
  intros w fs Hd Hok Hnamed. eexists.
  rewrite AdminSessionsRoute_DELETE_run. split; [reflexivity|].
  rewrite Hd in *. simpl in Hnamed |- *.
  assert (forall p,
            files_of (foldl (fun d s => unlink_file (Storage.getSessionPath (id s)) d)
                            (Dir true fs) (listing (Dir true fs))) !! p
            = if endsWith p ".json" then None else fs !! p) as Hfiles.
  { intros p. rewrite foldl_unlink_lookup. simpl.
    destruct (endsWith p ".json") eqn:He.
    - case_decide as Hin; [done|].
      destruct (fs !! p) as [data|] eqn:Hp; [|done].
      destruct (Hok p data He Hp) as [s ->].
      exfalso. apply Hin. apply list_elem_of_fmap. exists s.
      split; [by apply Hnamed|].
      apply listing_elem_of; eauto.
    - case_decide as Hin; [|done].
      apply list_elem_of_fmap in Hin as (s & -> & _).
      by rewrite getSessionPath_endsWith in He. }
  split; [exact Hfiles|].
  rewrite getAllSessions_run. simpl. f_equal.
  destruct (foldl_unlink_shape (listing (Dir true fs)) true fs) as [fs' Hshape].
  rewrite Hshape in *. simpl in Hfiles.
  apply listing_no_json. intros p He. by rewrite Hfiles, He.
Qed.

Lemma all_parse_anna : all_parse anna_files.
Proof.
  intros p data _ Hp. unfold anna_files in Hp.
  apply lookup_singleton_Some in Hp as [_ <-]. eauto.
Qed.

Lemma admin_delete_clears_every_session_witness :
  exists w',
    AdminSessionsRoute.DELETE anna_world
    = (Return (RouteResponse_json (MessageField "All sessions cleared") 200), w') /\
    (forall p, files_of (disk w') !! p
               = if endsWith p ".json" then None else anna_files !! p) /\
    fst (Storage.getAllSessions w') = Return [].
Proof.
  apply (admin_delete_clears_every_session anna_world anna_files eq_refl
           all_parse_anna well_named_anna).
Defined.

(** X7. When the folder cannot be enumerated or one of its [.json] files does
    not parse, [DELETE /api/admin/sessions] deletes nothing and still answers
    200 "All sessions cleared". *)
Theorem admin_delete_reports_success_without_deleting :
  forall (w : World) (l : bool) (fs : gmap string file_data),
    disk w = Dir l fs ->
    l = false \/
    (exists p raw, endsWith p ".json" = true /\ fs !! p = Some (Garbage raw)) ->
    AdminSessionsRoute.DELETE w
    = (Return (RouteResponse_json (MessageField "All sessions cleared") 200), w).
Proof.
  intros w l fs Hd Hbad. rewrite AdminSessionsRoute_DELETE_run.
  assert (listing (disk w) = []) as ->.
  { rewrite Hd. destruct Hbad as [->|(p & raw & He & Hp)]; [done|].
    by eapply listing_corrupt. }
  simpl. rewrite Hd. simpl. rewrite <- Hd. by rewrite with_disk_same.
Qed.

Lemma admin_delete_reports_success_without_deleting_witness :
  AdminSessionsRoute.DELETE mixed_world
  = (Return (RouteResponse_json (MessageField "All sessions cleared") 200),
     mixed_world).
Proof.
  apply (admin_delete_reports_success_without_deleting mixed_world true
           (<[ "broken.json" := Garbage "{ not json" ]> anna_files) eq_refl).
  right. exists "broken.json", "{ not json". split; reflexivity.
Defined.

(** X8. A record that does not parse behaves as a missing one for
    [getChatSession], [addMessage], [updateEvaluation], the chat handler
    (404, no AI call) and the admin detail route (404): none of them throws
    or touches a file.  [deleteSession] still removes it and returns
    [true]. *)
Theorem corrupt_record_is_treated_as_missing :
  forall (E : Env) (sid msg raw : string) (w : World),
    files_of (disk w) !! Storage.getSessionPath sid = Some (Garbage raw) ->
    sid ≠ "" -> msg ≠ "" ->
    fst (Storage.getChatSession sid w) = Return None /\
    (forall r c, Storage.addMessage E sid r c w = (Return tt, w)) /\
    (forall ev, Storage.updateEvaluation sid ev w = (Return tt, w)) /\
    ChatMessageRoute.POST E
      (JsonBody {| sessionId := Some sid; message := Some msg |}) w
    = (Return (NextResponse_json (ErrorField "Session not found") 404), w) /\
    AdminSessionRoute.GET sid w
    = (Return (NextResponse_json (ErrorField "Session not found") 404), w) /\
    fst (Storage.deleteSession sid w) = Return true /\
    files_of (disk (snd (Storage.deleteSession sid w)))
    = delete (Storage.getSessionPath sid) (files_of (disk w)).
Proof.
  intros E sid msg raw w Hf Hne1 Hne2.
  assert (session_at sid (disk w) = None) as Hs
    by (unfold session_at; by rewrite Hf).
  assert (with_disk w (init_disk (disk w)) = w) as Hw.
  { destruct w as [[|l fs] t tr]; simpl in *; [by rewrite lookup_empty in Hf|done]. }
  rewrite getChatSession_run, AdminSessionRoute_GET_run, Hs, Hw. simpl.
  split; [done|].
  split; [intros; by rewrite addMessage_run, Hs, Hw|].
  split; [intros; by rewrite updateEvaluation_run, Hs, Hw|].
  split.
  { rewrite POST_run_not_found, ?Hw; simpl; try done.
    apply andb_true_iff. split; apply negb_true_iff, String.eqb_neq; done. }
  split; [done|].
  rewrite deleteSession_run, Hf. simpl. split; [done|].
  destruct (disk w); simpl; [by rewrite delete_empty|done].
Qed.

Lemma corrupt_record_is_treated_as_missing_witness :
  fst (Storage.getChatSession "broken" mixed_world) = Return None /\
  ChatMessageRoute.POST steadyEnv
    (JsonBody {| sessionId := Some "broken"; message := Some "hello" |}) mixed_world
  = (Return (NextResponse_json (ErrorField "Session not found") 404), mixed_world) /\
  fst (Storage.deleteSession "broken" mixed_world) = Return true.
Proof.
  destruct (corrupt_record_is_treated_as_missing steadyEnv "broken" "hello"
              "{ not json" mixed_world)
    as (Hget & _ & _ & Hpost & _ & Hdel & _);
    [reflexivity|discriminate|discriminate|].
  by repeat split.
Defined.

Lemma all_parse_insert fs p s : all_parse fs -> all_parse (<[p := Json s]> fs).
Proof.
  intros Hok q data He Hq.
  destruct (decide (p = q)) as [<-|Hne].
  - rewrite lookup_insert_eq in Hq. injection Hq as <-. eauto.
  - rewrite lookup_insert_ne in Hq by done. eauto.
Qed.

(** X9. On a folder whose [.json] files all parse, a session just created is
    part of the next listing, and so is every session stored under another
    file name. *)
Theorem created_session_is_listed :
  forall (E : Env) (w : World) (fs : gmap string file_data),
    disk w = Dir true fs ->
    all_parse fs ->
    exists sid w' L s,
      Storage.createChatSession E w = (Return sid, w') /\
      fst (Storage.getChatSession sid w') = Return (Some s) /\
      fst (Storage.getAllSessions w') = Return L /\
      s ∈ L /\
      (forall p s0, p ≠ Storage.getSessionPath sid ->
                    endsWith p ".json" = true -> fs !! p = Some (Json s0) ->
                    s0 ∈ L).
Proof.
  intros E w fs Hd Hok. do 4 eexists.
  rewrite createChatSession_run. cbv zeta. split; [reflexivity|].
  rewrite getChatSession_run, getAllSessions_run. simpl.
  rewrite session_at_write_same, Hd. simpl.
  split; [reflexivity|]. split; [reflexivity|]. split.
  - apply listing_elem_of; [by apply all_parse_insert|].
    eexists. split; [apply getSessionPath_endsWith|]. by rewrite lookup_insert_eq.
  - intros p s0 Hp He Hs0.
    apply listing_elem_of; [by apply all_parse_insert|].
    exists p. split; [done|]. by rewrite lookup_insert_ne.
Qed.

Lemma created_session_is_listed_witness :
  exists sid w' L s,
    Storage.createChatSession steadyEnv anna_world = (Return sid, w') /\
    fst (Storage.getChatSession sid w') = Return (Some s) /\
    fst (Storage.getAllSessions w') = Return L /\
    s ∈ L /\
    (forall p s0, p ≠ Storage.getSessionPath sid ->
                  endsWith p ".json" = true -> anna_files !! p = Some (Json s0) ->
                  s0 ∈ L).
Proof.
  apply (created_session_is_listed steadyEnv anna_world anna_files eq_refl
           all_parse_anna).
Defined.

Lemma sorted_head (L : list ChatSession) (s : ChatSession) :
  StronglySorted descending L ->
  s ∈ L ->
  (forall s0, s0 ∈ L -> s0 = s \/ (updatedAt s0 < updatedAt s)%Z) ->
  exists rest, L = s :: rest.
Proof.
  intros Hsorted Hin Hmax. destruct L as [|h t]; [by apply elem_of_nil in Hin|].
  destruct (Hmax h) as [->|Hlt]; [left|eauto|].
  apply elem_of_cons in Hin as [->|Hin]; [eauto|].
  apply StronglySorted_inv in Hsorted as [_ Hall].
  rewrite Forall_forall in Hall.
  specialize (Hall s Hin). unfold descending in Hall. lia.
Qed.

(** X10. On a folder whose [.json] files all parse, after [addMessage] on a
    session at a clock reading later than the [updatedAt] of every other
    session, that session is the first of the listing. *)
Theorem addMessage_moves_session_to_front :
  forall (E : Env) (sid : string) (r : Role) (c : string) (w : World)
         (fs : gmap string file_data) (s : ChatSession),
    disk w = Dir true fs ->
    all_parse fs ->
    session_at sid (disk w) = Some s ->
    (forall p s0, p ≠ Storage.getSessionPath sid ->
                  endsWith p ".json" = true -> fs !! p = Some (Json s0) ->
                  (updatedAt s0 < Date_now E (S (tick w)))%Z) ->
    exists s' rest,
      fst (Storage.getChatSession sid (snd (Storage.addMessage E sid r c w)))
      = Return (Some s') /\
      updatedAt s' = Date_now E (S (tick w)) /\
      fst (Storage.getAllSessions (snd (Storage.addMessage E sid r c w)))
      = Return (s' :: rest).
Proof.
  intros E sid r c w fs s Hd Hok Hs Hlater.
  rewrite addMessage_run, Hs. simpl.
  rewrite getChatSession_run, getAllSessions_run. simpl.
  rewrite session_at_write_same.
  set (s' := set_updatedAt _ _). rewrite Hd. simpl.
  destruct (sorted_head
              (listing (Dir true (<[Storage.getSessionPath sid := Json s']> fs))) s')
    as [rest Hrest].
  - apply listing_sorted.
  - apply listing_elem_of; [by apply all_parse_insert|].
    eexists. split; [apply getSessionPath_endsWith|]. by rewrite lookup_insert_eq.
  - intros s0 (p & He & Hp)%listing_elem_of; [|by apply all_parse_insert].
    destruct (decide (Storage.getSessionPath sid = p)) as [<-|Hne].
    + rewrite lookup_insert_eq in Hp. left. congruence.
    + rewrite lookup_insert_ne in Hp by done. right.
      subst s'. simpl. eauto.
  - exists s', rest. by rewrite Hrest.
Qed.

Lemma addMessage_moves_session_to_front_witness :
  exists s' rest,
    fst (Storage.getChatSession "anna"
           (snd (Storage.addMessage steadyEnv "anna" user "hello" pair_world)))
    = Return (Some s') /\
    updatedAt s' = 1700000000001%Z /\
    fst (Storage.getAllSessions
           (snd (Storage.addMessage steadyEnv "anna" user "hello" pair_world)))
    = Return (s' :: rest).
Proof.
  apply (addMessage_moves_session_to_front steadyEnv "anna" user "hello"
           pair_world pair_files anna eq_refl
           (all_parse_insert anna_files "bob.json" bob all_parse_anna) eq_refl).
  intros p s0 Hp _ Hs0. unfold pair_files, anna_files in Hs0.
  apply lookup_insert_Some in Hs0 as [[_ [= <-]]|[_ Hs0]]; [done|].
  apply lookup_singleton_Some in Hs0 as [<- _]. by destruct Hp.
Defined.

(** ** Sessions only grow *)

Lemma extends_refl s : extends s s.
Proof. by repeat split. Qed.

Lemma extends_trans s1 s2 s3 : extends s1 s2 -> extends s2 s3 -> extends s1 s3.
Proof.
  intros (Hi & Hc & Hm) (Hi' & Hc' & Hm'). repeat split; try congruence.
  by etrans.
Qed.

Lemma session_at_write id' p s d :
  session_at id' (write_file p (Json s) (init_disk d))
  = if decide (p = Storage.getSessionPath id') then Some s else session_at id' d.
Proof.
  unfold session_at. case_decide as Hp.
  - subst p. destruct d; simpl; by rewrite lookup_insert_eq.
  - by rewrite files_of_write_other.
Qed.

Lemma session_at_same_path a b d :
  Storage.getSessionPath a = Storage.getSessionPath b ->
  session_at a d = session_at b d.
Proof. unfold session_at. by intros ->. Qed.

Lemma grows_refl w : grows w w.
Proof. intros id' s Hs. eauto using extends_refl. Qed.

Lemma grows_trans w1 w2 w3 : grows w1 w2 -> grows w2 w3 -> grows w1 w3.
Proof.
  intros H12 H23 id' s Hs.
  destruct (H12 id' s Hs) as (s2 & Hs2 & He2).
  destruct (H23 id' s2 Hs2) as (s3 & Hs3 & He3).
  eauto using extends_trans.
Qed.

Lemma grows_init w : grows w (with_disk w (init_disk (disk w))).
Proof.
  intros id' s Hs. simpl. rewrite session_at_init_disk. eauto using extends_refl.
Qed.

Lemma grows_write sid s0 s1 w t tr :
  session_at sid (disk w) = Some s0 ->
  extends s0 s1 ->
  grows w {| disk := write_file (Storage.getSessionPath sid) (Json s1)
                       (init_disk (disk w));
             tick := t; trace := tr |}.
Proof.
  intros Hs0 Hext id' s Hs. simpl. rewrite session_at_write.
  case_decide as Hp; [|eauto using extends_refl].
  rewrite (session_at_same_path id' sid) in Hs by done.
  rewrite Hs0 in Hs. injection Hs as <-. eauto.
Qed.

Section Growth.
Context (E : Env).

Lemma grows_addMessage sid r c w :
  grows w (snd (Storage.addMessage E sid r c w)).
Proof.
  rewrite addMessage_run. simpl.
  destruct (session_at sid (disk w)) as [s0|] eqn:Hs0; [|apply grows_init].
  apply (grows_write sid s0); [done|].
  repeat split. simpl. by apply prefix_app_r.
Qed.

Lemma grows_updateEvaluation sid ev w :
  grows w (snd (Storage.updateEvaluation sid ev w)).
Proof.
  rewrite updateEvaluation_run. simpl.
  destruct (session_at sid (disk w)) as [s0|] eqn:Hs0; [|apply grows_init].
  apply (grows_write sid s0); [done|]. by repeat split.
Qed.

Lemma grows_generateTherapyResponse msgs w :
  grows w (snd (Gemini.generateTherapyResponse E msgs w)).
Proof.
  intros id' s Hs. rewrite disk_generateTherapyResponse.
  eauto using extends_refl.
Qed.

Lemma grows_evaluateEveryFifth sid w :
  grows w (snd (ChatMessageRoute.evaluateEveryFifth E sid w)).
Proof.
  rewrite evaluateEveryFifth_run. simpl.
  destruct (session_at sid (disk w)) as [s0|] eqn:Hs0; [|apply grows_init].
  destruct (due (length (messages s0))); [|apply grows_init].
  destruct (fst (Gemini.evaluateMentalHealth E _ w)) as [v|e].
  - apply (grows_write sid s0); [done|]. by repeat split.
  - intros id' s Hs. simpl. rewrite session_at_init_disk.
    eauto using extends_refl.
Qed.

Lemma grows_POST request w :
  grows w (snd (ChatMessageRoute.POST E request w)).
Proof.
  destruct request as [|body]; [apply grows_refl|].
  destruct (truthy (sessionId body) && truthy (message body)) eqn:Hvalid;
    [|rewrite POST_run_missing_field by done; apply grows_refl].
  destruct (session_at (field_text (sessionId body)) (disk w)) as [s|] eqn:Hs.
  2:{ rewrite POST_run_not_found by done. apply grows_init. }
  apply andb_true_iff in Hvalid as [Hsid Hmsg].
  apply truthy_Some in Hsid as (sid & Hsid & Hne1).
  apply truthy_Some in Hmsg as (msg & Hmsg & Hne2).
  destruct body as [fsid fmsg]. simpl in *. subst fsid fmsg. simpl in Hs.
  destruct (POST_run_valid E sid msg w s Hne1 Hne2 Hs) as [_ ->].
  set (g := Gemini.generateTherapyResponse E _ _).
  assert (grows w (snd g)) as Hg.
  { subst g. eapply grows_trans;
      [apply grows_addMessage|apply grows_generateTherapyResponse]. }
  destruct (fst g) as [reply|e]; simpl; [|done].
  eapply grows_trans; [exact Hg|].
  eapply grows_trans; [apply grows_addMessage|apply grows_evaluateEveryFifth].
Qed.

End Growth.

(** X11. Neither the chat handler nor [addMessage] nor [updateEvaluation]
    ever removes a session or one of its messages: a session that loads
    before the call loads after it, with the same [id] and [createdAt], and
    its former messages are a prefix of its messages. *)
Theorem sessions_only_grow :
  forall (E : Env) (w : World) (id' : string) (s : ChatSession),
    session_at id' (disk w) = Some s ->
    (forall request, exists s',
        session_at id' (disk (snd (ChatMessageRoute.POST E request w))) = Some s' /\
        id s' = id s /\ createdAt s' = createdAt s /\
        messages s `prefix_of` messages s') /\
    (forall sid r c, exists s',
        session_at id' (disk (snd (Storage.addMessage E sid r c w))) = Some s' /\
        id s' = id s /\ createdAt s' = createdAt s /\
        messages s `prefix_of` messages s') /\
    (forall sid ev, exists s',
        session_at id' (disk (snd (Storage.updateEvaluation sid ev w))) = Some s' /\
        id s' = id s /\ createdAt s' = createdAt s /\
        messages s' = messages s).
Proof.
  intros E w id' s Hs. split; [|split].
  - intros request. by apply (grows_POST E request w).
  - intros sid r c. by apply (grows_addMessage E sid r c w).
  - intros sid ev. rewrite updateEvaluation_run.
    destruct (session_at sid (disk w)) as [s0|] eqn:Hs0; unfold with_disk; simpl.
    + rewrite session_at_write. case_decide as Hp; [|eauto].
      rewrite (session_at_same_path id' sid) in Hs by done.
      rewrite Hs0 in Hs. injection Hs as <-. eauto.
    + rewrite session_at_init_disk. eauto.
Qed.

Lemma sessions_only_grow_witness :
  exists s',
    session_at "anna"
      (disk (snd (ChatMessageRoute.POST steadyEnv anna_request anna_world)))
    = Some s' /\
    id s' = "anna" /\ createdAt s' = 900%Z /\
    three_messages `prefix_of` messages s'.
Proof.
  destruct (sessions_only_grow steadyEnv anna_world "anna" anna eq_refl)
    as [Hpost _].
  exact (Hpost anna_request).
Defined.

(** ** Creating a session, then talking *)

Lemma ChatCreateRoute_POST_run E w :
  ChatCreateRoute.POST E w
  = (match fst (Storage.createChatSession E w) with
     | Return sid => Return (RouteResponse_json (SessionIdField sid) 200)
     | Throw _ =>
         Return (RouteResponse_json (FailureField "Failed to create session") 500)
     end, snd (Storage.createChatSession E w)).
Proof.
  unfold ChatCreateRoute.POST, try_catch, mbind, Eff_bind.
  by destruct (Storage.createChatSession E w) as [[sid|e] w'].
Qed.

(** X12. When [POST /api/chat/create] answers with an identifier, an empty
    session is stored under it, and a chat request that carries this
    identifier and a non-empty message is never refused (no 400, no 404): it
    is answered with the reply, the session then holding two messages, or
    with the 500 of a failed reply generation, the session then holding the
    user's message only. *)
Theorem created_session_accepts_messages :
  forall (E : Env) (w w' : World) (sid msg : string) (code : Z),
    msg ≠ "" ->
    ChatCreateRoute.POST E w
    = (Return (RouteResponse_json (SessionIdField sid) code), w') ->
    code = 200%Z /\
    (exists s, session_at sid (disk w') = Some s /\ messages s = []) /\
    exists resp w'',
      ChatMessageRoute.POST E
        (JsonBody {| sessionId := Some sid; message := Some msg |}) w'
      = (Return resp, w'') /\
      ((exists reply, resp = NextResponse_json (ResponseField reply) 200 /\
                      message_count sid (disk w'') = 2) \/
       (resp = NextResponse_json
                 (ErrorField "Failed to generate response from AI") 500 /\
        message_count sid (disk w'') = 1)).
Proof.
  intros E w w0 sid0 msg code Hmsg.
  rewrite ChatCreateRoute_POST_run, createChatSession_run. cbv zeta. simpl.
  set (sid := "session_" +:+ _).
  set (w' := {| disk := _; tick := _; trace := _ |}).
  intros [= <- <- <-]. split; [done|].
  assert (session_at sid (disk w') = Some
            {| id := sid; messages := []; evaluation := None;
               createdAt := Date_now E (S (S (tick w)));
               updatedAt := Date_now E (S (S (S (tick w)))) |}) as Hs
    by apply session_at_write_same.
  split; [eauto|].
  assert (sid ≠ "") as Hsid by done.
  destruct (POST_run_valid E sid msg w' _ Hsid Hmsg Hs) as [Hs1 ->].
  set (w1 := snd (Storage.addMessage E sid user msg w')) in *.
  set (g := Gemini.generateTherapyResponse E _ w1).
  assert (disk (snd g) = disk w1) as Hdg
    by (subst g; apply disk_generateTherapyResponse).
  destruct (fst g) as [reply|e]; do 2 eexists; (split; [reflexivity|]).
  - left. exists reply. split; [done|].
    destruct (evaluateEveryFifth_effect E sid
                (snd (Storage.addMessage E sid assistant reply (snd g))))
      as (w4 & Hrun & _).
    rewrite Hrun. simpl.
    rewrite (message_count_after_evaluation E sid _ w4 Hrun).
    unfold message_count. rewrite addMessage_run. simpl.
    rewrite Hdg, Hs1. simpl. by rewrite session_at_write_same.
  - right. split; [done|]. unfold message_count. by rewrite Hdg, Hs1.
Qed.

Lemma created_session_accepts_messages_witness :
  200%Z = 200%Z /\
  (exists s,
     session_at "session_1700000000000_k3f9x2a"
       (disk (snd (ChatCreateRoute.POST steadyEnv blank_world))) = Some s /\
     messages s = []) /\
  exists resp w'',
    ChatMessageRoute.POST steadyEnv
      (JsonBody {| sessionId := Some "session_1700000000000_k3f9x2a";
                   message := Some "hello" |})
      (snd (ChatCreateRoute.POST steadyEnv blank_world))
    = (Return resp, w'') /\
    ((exists reply, resp = NextResponse_json (ResponseField reply) 200 /\
                    message_count "session_1700000000000_k3f9x2a" (disk w'') = 2) \/
     (resp = NextResponse_json
               (ErrorField "Failed to generate response from AI") 500 /\
      message_count "session_1700000000000_k3f9x2a" (disk w'') = 1)).
Proof.
  apply (created_session_accepts_messages steadyEnv blank_world
           (snd (ChatCreateRoute.POST steadyEnv blank_world))
           "session_1700000000000_k3f9x2a" "hello" 200);
    [discriminate|reflexivity].
Defined.

(** ** Refusals and calls of the chat handler *)

(** X13. The chat handler always answers.  It answers 400 exactly when the
    body lacks a non-empty [sessionId] or [message], and 404 exactly when
    both are present and no session loads under the identifier; a body that
    is not JSON is answered 500 "Failed to process message".  In these three
    cases no file is changed, no clock is read and no AI call is made. *)
Theorem POST_refusals :
  forall (E : Env) (request : Request) (w : World),
    exists resp w',
      ChatMessageRoute.POST E request w = (Return resp, w') /\
      (request = MalformedBody ->
       resp = NextResponse_json (ErrorField "Failed to process message") 500 /\
       w' = w) /\
      (forall body, request = JsonBody body ->
         (status resp = 400%Z
          <-> truthy (sessionId body) && truthy (message body) = false) /\
         (status resp = 404%Z
          <-> truthy (sessionId body) && truthy (message body) = true /\
              session_at (field_text (sessionId body)) (disk w) = None)) /\
      (status resp = 400%Z \/ status resp = 404%Z ->
       files_of (disk w') = files_of (disk w) /\
       tick w' = tick w /\ trace w' = trace w).
Proof.
  intros E request w. destruct request as [|body].
  { rewrite POST_run_malformed. do 2 eexists. split; [reflexivity|].
    split; [done|]. split; [discriminate|]. simpl. intros [[=]|[=]]. }
  destruct (truthy (sessionId body) && truthy (message body)) eqn:Hvalid.
  2:{ rewrite POST_run_missing_field by done. do 2 eexists.
      split; [reflexivity|]. split; [discriminate|]. split; [|done].
      intros ? [= <-]. rewrite Hvalid. simpl. split; [done|].
      split; [discriminate|]. by intros [[=] _]. }
  destruct (session_at (field_text (sessionId body)) (disk w)) as [s|] eqn:Hs.
  2:{ rewrite POST_run_not_found by done. do 2 eexists.
      split; [reflexivity|]. split; [discriminate|]. split.
      - intros ? [= <-]. rewrite Hvalid, Hs. simpl. split; [|done].
        split; discriminate.
      - intros _. simpl. by rewrite files_of_init_disk. }
  pose proof Hvalid as Hv.
  apply andb_true_iff in Hvalid as [Hsid Hmsg].
  apply truthy_Some in Hsid as (sid & Hsid & Hne1).
  apply truthy_Some in Hmsg as (msg & Hmsg & Hne2).
  destruct body as [fsid fmsg]. simpl in *. subst fsid fmsg. simpl in Hs.
  destruct (POST_run_valid E sid msg w s Hne1 Hne2 Hs) as [_ ->].
  destruct (fst (Gemini.generateTherapyResponse E _ _)) as [reply|e];
    do 2 eexists; (split; [reflexivity|]); (split; [discriminate|]); simpl.
  - split; [|intros [[=]|[=]]]. intros ? [= <-]. cbn [sessionId message field_text]. rewrite Hv, Hs.
    split; split; try discriminate. by intros [_ [=]].
  - split; [|intros [[=]|[=]]]. intros ? [= <-]. cbn [sessionId message field_text]. rewrite Hv, Hs.
    split; split; try discriminate. by intros [_ [=]].
Qed.

Lemma history_snoc msgs m :
  ChatMessageRoute.history (msgs ++ [m])
  = (ChatMessageRoute.history msgs ++ [(role m, content m)])%list.
Proof. unfold ChatMessageRoute.history. by rewrite map_app. Qed.

(** X14. For a request that names a session that loads, the handler calls
    reply generation exactly once, with the whole stored history followed by
    the user's new message.  If it then calls the evaluation, the transcript
    it passes ends with that message and the reply just generated. *)
Theorem POST_calls_carry_the_whole_conversation :
  forall (E : Env) (sid msg : string) (w : World) (s : ChatSession),
    sid ≠ "" -> msg ≠ "" ->
    session_at sid (disk w) = Some s ->
    exists resp w' tail,
      ChatMessageRoute.POST E
        (JsonBody {| sessionId := Some sid; message := Some msg |}) w
      = (Return resp, w') /\
      trace w'
      = (trace w
           ++ CallGenerateTherapyResponse
                (ChatMessageRoute.history (messages s) ++ [(user, msg)])
           :: tail)%list /\
      (tail = [] \/
       exists reply t1 t2,
         resp = NextResponse_json (ResponseField reply) 200 /\
         tail = [CallEvaluateMentalHealth
                   (ChatMessageRoute.transcript
                      (messages s
                         ++ [ {| role := user; content := msg; timestamp := t1 |};
                              {| role := assistant; content := reply;
                                 timestamp := t2 |} ]))]).
Proof.
  intros E sid msg w s Hne1 Hne2 Hs.
  destruct (POST_run_valid E sid msg w s Hne1 Hne2 Hs) as [Hs1 ->].
  rewrite addMessage_run, Hs in *. simpl in *.
  rewrite generateTherapyResponse_run. simpl. rewrite history_snoc. simpl.
  destruct (generateContent E (S (S (tick w))) _) as [e|reply]; simpl.
  { do 3 eexists. split; [reflexivity|]. split; [reflexivity|]. by left. }
  rewrite addMessage_run. simpl. rewrite Hs1. simpl.
  rewrite evaluateEveryFifth_run. simpl. rewrite session_at_write_same. simpl.
  destruct (due _).
  - destruct (fst (Gemini.evaluateMentalHealth E _ _)); simpl;
      do 3 eexists; (split; [reflexivity|]);
      rewrite <- !app_assoc; simpl; (split; [reflexivity|]);
      right; do 3 eexists; (split; [reflexivity|]); reflexivity.
  - do 3 eexists. split; [reflexivity|]. split; [reflexivity|]. by left.
Qed.

Lemma POST_calls_carry_the_whole_conversation_witness :
  exists resp w' tail,
    ChatMessageRoute.POST steadyEnv anna_request anna_world = (Return resp, w') /\
    trace w'
    = (trace anna_world
         ++ CallGenerateTherapyResponse
              (ChatMessageRoute.history three_messages ++ [(user, "I cannot sleep")])
         :: tail)%list /\
    (tail = [] \/
     exists reply t1 t2,
       resp = NextResponse_json (ResponseField reply) 200 /\
       tail = [CallEvaluateMentalHealth
                 (ChatMessageRoute.transcript
                    (three_messages
                       ++ [ {| role := user; content := "I cannot sleep";
                               timestamp := t1 |};
                            {| role := assistant; content := reply;
                               timestamp := t2 |} ]))]).
Proof.
  apply (POST_calls_carry_the_whole_conversation steadyEnv "anna"
           "I cannot sleep" anna_world anna);
    [discriminate|discriminate|reflexivity].
Defined.

(** X15. When the periodic evaluation is due and [evaluateMentalHealth]
    succeeds, the record stored afterwards has the assessment, stamped with
    the clock, as its evaluation (whatever evaluation it had before); its
    identifier, messages and time stamps are the ones read and no other file
    changes. *)
Theorem successful_evaluation_is_stored :
  forall (E : Env) (sid : string) (w : World) (s : ChatSession) (v : Evaluation),
    session_at sid (disk w) = Some s ->
    positive_multiple_of_5 (length (messages s)) ->
    fst (Gemini.evaluateMentalHealth E
           (ChatMessageRoute.transcript (messages s)) w) = Return v ->
    exists w' s',
      ChatMessageRoute.evaluateEveryFifth E sid w = (Return tt, w') /\
      session_at sid (disk w') = Some s' /\
      evaluation s'
      = Some {| assessment := v; evaluatedAt := Date_now E (S (tick w)) |} /\
      id s' = id s /\ messages s' = messages s /\
      createdAt s' = createdAt s /\ updatedAt s' = updatedAt s /\
      (forall p, p ≠ Storage.getSessionPath sid ->
                 files_of (disk w') !! p = files_of (disk w) !! p).
Proof.
  intros E sid w s v Hs Hdue%due_spec Hev. do 2 eexists.
  rewrite evaluateEveryFifth_run, Hs, Hdue. cbv zeta. rewrite Hev.
  split; [reflexivity|]. simpl. rewrite session_at_write_same.
  split; [reflexivity|]. repeat split.
  intros p Hp. by rewrite files_of_write_other.
Qed.

Lemma successful_evaluation_is_stored_witness :
  exists w' s',
    ChatMessageRoute.evaluateEveryFifth candidEnv "anna" answered_world
    = (Return tt, w') /\
    session_at "anna" (disk w') = Some s' /\
    evaluation s' = Some {| assessment := calm; evaluatedAt := 1700000000001 |} /\
    id s' = "anna" /\
    messages s' = messages (anna_answered 1003 1004 1005 1006) /\
    createdAt s' = 900%Z /\ updatedAt s' = 1006%Z /\
    (forall p, p ≠ Storage.getSessionPath "anna" ->
               files_of (disk w') !! p = files_of (disk answered_world) !! p).
Proof.
  apply (successful_evaluation_is_stored candidEnv "anna" answered_world
           (anna_answered 1003 1004 1005 1006) calm eq_refl).
  - exists 1. split; [lia|reflexivity].
  - reflexivity.
Defined.

(** X17. Once [deleteSession] has run for an identifier, a chat request for
    it is answered 404 without any AI call, and [addMessage] and
    [updateEvaluation] for it do nothing: the message is dropped and no file
    is created again. *)
Theorem deleted_session_refuses_messages :
  forall (E : Env) (sid msg : string) (w : World),
    sid ≠ "" -> msg ≠ "" ->
    let w1 := snd (Storage.deleteSession sid w) in
    exists w',
      ChatMessageRoute.POST E
        (JsonBody {| sessionId := Some sid; message := Some msg |}) w1
      = (Return (NextResponse_json (ErrorField "Session not found") 404), w') /\
      files_of (disk w') = files_of (disk w1) /\
      trace w' = trace w1 /\
      (forall r c,
         files_of (disk (snd (Storage.addMessage E sid r c w1)))
         = files_of (disk w1)) /\
      (forall ev,
         files_of (disk (snd (Storage.updateEvaluation sid ev w1)))
         = files_of (disk w1)) /\
      files_of (disk w1) !! Storage.getSessionPath sid = None.
Proof.
  intros E sid msg w Hne1 Hne2 w1.
  assert (files_of (disk w1) !! Storage.getSessionPath sid = None) as Hgone.
  { subst w1. rewrite deleteSession_run_unlink. simpl.
    destruct (disk w); simpl; [apply lookup_empty|apply lookup_delete_eq]. }
  assert (session_at sid (disk w1) = None) as Hs
    by (unfold session_at; by rewrite Hgone).
  eexists. rewrite POST_run_not_found; simpl; [|
    apply andb_true_iff; split; apply negb_true_iff, String.eqb_neq; done|done].
  split; [reflexivity|]. simpl. rewrite files_of_init_disk.
  split; [done|]. split; [done|].
  split; [intros; by rewrite addMessage_run, Hs; simpl; rewrite files_of_init_disk|].
  split; [intros; by rewrite updateEvaluation_run, Hs; simpl;
                     rewrite files_of_init_disk|done].
Qed.

Lemma deleted_session_refuses_messages_witness :
  exists w',
    ChatMessageRoute.POST steadyEnv anna_request
      (snd (Storage.deleteSession "anna" anna_world))
    = (Return (NextResponse_json (ErrorField "Session not found") 404), w') /\
    files_of (disk w') = files_of (disk (snd (Storage.deleteSession "anna" anna_world))) /\
    trace w' = trace (snd (Storage.deleteSession "anna" anna_world)).
Proof.
  destruct (deleted_session_refuses_messages steadyEnv "anna" "I cannot sleep"
              anna_world) as (w' & Hpost & Hfiles & Htrace & _);
    [discriminate|discriminate|].
  exists w'. by repeat split.
Defined.

(** ** The shape of the brace match *)

Lemma lacks_cons c ch s : lacks c (String ch s) <-> ch ≠ c /\ lacks c s.
Proof.
  unfold lacks. simpl. split.
  - intros H. split; [intros ->|intros ?]; apply H; auto.
  - intros [Hc Hs] [?|?]; [by apply Hc|by apply Hs].
Qed.

Lemma lacks_empty c : lacks c "".
Proof. intros []. Qed.

Lemma upto_last_brace_lacks c : lacks "}" c -> upto_last_brace c = None.
Proof.
  induction c as [|ch c IH]; [done|]. intros [Hch Hc]%lacks_cons. simpl.
  rewrite (IH Hc). by destruct (Ascii.eqb_spec ch "}").
Qed.

Lemma upto_last_brace_exact b c :
  lacks "}" c -> upto_last_brace (b +:+ String "}" c) = Some (b +:+ "}").
Proof.
  intros Hc. induction b as [|ch b IH];
    repeat (rewrite append_nil || rewrite append_cons); simpl.
  - by rewrite (upto_last_brace_lacks c Hc).
  - by rewrite IH.
Qed.

Lemma upto_last_brace_None_lacks r : upto_last_brace r = None -> lacks "}" r.
Proof.
  induction r as [|ch r IH]; simpl; [intros _; apply lacks_empty|].
  destruct (upto_last_brace r); [discriminate|].
  destruct (Ascii.eqb_spec ch "}") as [->|Hch]; [discriminate|].
  intros _. apply lacks_cons. auto.
Qed.

Lemma upto_last_brace_split s :
  forall p, upto_last_brace s = Some p ->
            exists b c, p = b +:+ "}" /\ s = b +:+ String "}" c /\ lacks "}" c.
Proof.
  induction s as [|ch r IH]; simpl; intros p Hp; [discriminate|].
  destruct (upto_last_brace r) as [q|] eqn:Hq.
  - injection Hp as <-. destruct (IH q eq_refl) as (b & c & -> & -> & Hc).
    by exists (String ch b), c.
  - destruct (Ascii.eqb_spec ch "}") as [->|]; [|discriminate].
    injection Hp as <-. exists "", r. repeat split.
    by apply upto_last_brace_None_lacks.
Qed.

Lemma string_append_assoc a b c : (a +:+ b) +:+ c = a +:+ b +:+ c.
Proof.
  induction a as [|x a IH]; repeat (rewrite append_nil || rewrite append_cons);
    [done|]. by rewrite IH.
Qed.

Lemma upto_last_brace_None_jsonMatch r :
  upto_last_brace r = None -> jsonMatch r = None.
Proof.
  intros Hnone. destruct (jsonMatch r) as [j|] eqn:Hj; [|done].
  apply jsonMatch_has_braces in Hj as (a & b & c & ->).
  destruct (upto_last_brace_closing (a +:+ String "{" b) c).
  by rewrite string_append_assoc, append_cons.
Qed.

Lemma jsonMatch_complete a b c :
  lacks "{" a -> lacks "}" c ->
  jsonMatch (a +:+ String "{" (b +:+ "}") +:+ c) = Some (String "{" (b +:+ "}")).
Proof.
  intros Ha Hc. induction a as [|ch a IH];
    repeat (rewrite append_nil || rewrite append_cons).
  - rewrite string_append_assoc, append_cons, append_nil. simpl.
    by rewrite upto_last_brace_exact.
  - apply lacks_cons in Ha as [Hch Ha]. simpl.
    destruct (Ascii.eqb_spec ch "{") as [->|_]; [done|]. by apply IH.
Qed.

Lemma jsonMatch_sound text :
  forall j, jsonMatch text = Some j ->
    exists a b c,
      text = a +:+ j +:+ c /\ j = String "{" (b +:+ "}") /\
      lacks "{" a /\ lacks "}" c.
Proof.
  induction text as [|ch r IH]; simpl; intros j Hj; [discriminate|].
  assert (jsonMatch r = Some j -> ch ≠ "{"%char ->
          exists a b c, String ch r = a +:+ j +:+ c /\
            j = String "{" (b +:+ "}") /\ lacks "{" a /\ lacks "}" c) as Hrest.
  { intros Hr Hch. destruct (IH j Hr) as (a & b & c & -> & -> & Ha & Hc).
    exists (String ch a), b, c. repeat split; [|done]. by apply lacks_cons. }
  destruct (Ascii.eqb_spec ch "{") as [->|Hch]; [|eauto].
  destruct (upto_last_brace r) as [p|] eqn:Hp.
  - injection Hj as <-.
    destruct (upto_last_brace_split r p Hp) as (b & c & -> & -> & Hc).
    exists "", b, c. repeat split; [|apply lacks_empty|done].
    by rewrite append_nil, append_cons, string_append_assoc, append_cons,
      append_nil.
  - by rewrite (upto_last_brace_None_jsonMatch r Hp) in Hj.
Qed.

(** X18. What [text.match(/\{[\s\S]*\}/)] returns: the match exists exactly
    when the text splits into a part without an opening brace, a piece that
    starts with an opening brace and ends with a closing one, and a rest
    without a closing brace; the match is that piece (from the first opening
    brace to the last closing one). *)
Theorem jsonMatch_is_first_to_last_brace :
  forall (text j : string),
    jsonMatch text = Some j
    <-> exists a b c,
          text = a +:+ j +:+ c /\ j = String "{" (b +:+ "}") /\
          lacks "{" a /\ lacks "}" c.
Proof.
  intros text j. split; [apply jsonMatch_sound|].
  intros (a & b & c & -> & -> & Ha & Hc). by apply jsonMatch_complete.
Qed.

(** X19. A text that starts with an opening brace and ends with a closing
    one is matched whole, whatever lies between (a second object included);
    hence matching the result of a match again returns it unchanged. *)
Theorem jsonMatch_of_a_match :
  forall (text j : string),
    jsonMatch text = Some j ->
    jsonMatch j = Some j /\
    (forall inner, jsonMatch (String "{" (inner +:+ "}"))
                   = Some (String "{" (inner +:+ "}"))).
Proof.
  intros text j Hj.
  assert (forall inner, jsonMatch (String "{" (inner +:+ "}"))
                        = Some (String "{" (inner +:+ "}"))) as Hwhole.
  { intros inner.
    pose proof (jsonMatch_complete "" inner "" (lacks_empty _) (lacks_empty _))
      as H.
    rewrite append_nil in H.
    replace (String "{" (inner +:+ "}") +:+ "") with (String "{" (inner +:+ "}"))
      in H; [done|].
    generalize (String "{" (inner +:+ "}")). clear.
    intros s. induction s as [|x s IH]; [done|].
    by rewrite append_cons, <- IH. }
  split; [|done].
  destruct (jsonMatch_sound text j Hj) as (a & b & c & _ & -> & _). apply Hwhole.
Qed.

Lemma jsonMatch_of_a_match_witness :
  jsonMatch "{wellnessScore: 72}" = Some "{wellnessScore: 72}".
Proof.
  apply (jsonMatch_of_a_match "Here it is: {wellnessScore: 72} as asked"
           "{wellnessScore: 72}" eq_refl).
Defined.

(** ** A whole conversation *)

Lemma due_even m :
  (if due (2 * S m) then 1 else 0) = S m / 5 - m / 5.
Proof.
  unfold due.
  pose proof (Nat.div_mod_eq m 5). pose proof (Nat.div_mod_eq (S m) 5).
  pose proof (Nat.div_mod_eq (2 * S m) 5).
  pose proof (Nat.mod_upper_bound m 5). pose proof (Nat.mod_upper_bound (S m) 5).
  pose proof (Nat.mod_upper_bound (2 * S m) 5).
  destruct (Nat.leb_spec 5 (2 * S m)); destruct (Nat.eqb_spec ((2 * S m) mod 5) 0);
    cbn [andb]; lia.
Qed.

Section Conversation.
Context (E : Env).
Hypothesis provider_answers :
  forall n prompt, exists text, generateContent E n prompt = inr text.

Lemma POST_exchange sid msg w s :
  sid ≠ "" -> msg ≠ "" ->
  session_at sid (disk w) = Some s ->
  let w' := snd (ChatMessageRoute.POST E
                   (JsonBody {| sessionId := Some sid; message := Some msg |}) w) in
  (exists s', session_at sid (disk w') = Some s' /\
              length (messages s') = length (messages s) + 2) /\
  evaluate_calls w'
  = evaluate_calls w + (if due (length (messages s) + 2) then 1 else 0).
Proof.
  intros Hne1 Hne2 Hs w'. subst w'.
  destruct (POST_run_valid E sid msg w s Hne1 Hne2 Hs) as [Hs1 ->].
  set (w1 := snd (Storage.addMessage E sid user msg w)) in *.
  rewrite generateTherapyResponse_run. simpl.
  destruct (provider_answers (tick w1) (Gemini.therapyPrompt E
              (ChatMessageRoute.history (messages s ++
                 [{| role := user; content := msg;
                     timestamp := Date_now E (tick w) |}]))))
    as [reply ->]. simpl.
  set (w2 := {| disk := disk w1; tick := S (tick w1); trace := _ |}).
  set (w3 := snd (Storage.addMessage E sid assistant reply w2)).
  assert (exists s3, session_at sid (disk w3) = Some s3 /\
                     length (messages s3) = length (messages s) + 2) as (s3 & Hs3 & Hlen).
  { subst w3. rewrite addMessage_run. simpl. rewrite Hs1. simpl.
    rewrite session_at_write_same. eexists. split; [reflexivity|].
    simpl. rewrite !length_app. simpl. lia. }
  assert (evaluate_calls w3 = evaluate_calls w) as Hc3.
  { subst w3. rewrite evaluate_calls_addMessage. subst w2.
    rewrite evaluate_calls_snoc_generate. subst w1.
    by rewrite evaluate_calls_addMessage. }
  destruct (evaluateEveryFifth_effect E sid w3) as (w4 & Hrun & Hc & Hm & _).
  rewrite Hrun. simpl. split.
  - specialize (Hm sid). rewrite Hs3 in Hm.
    destruct (session_at sid (disk w4)) as [s4|]; [|discriminate].
    simpl in Hm. injection Hm as Hm. exists s4. split; [done|]. by rewrite Hm.
  - rewrite Hc, Hc3. unfold message_count. by rewrite Hs3, Hlen.
Qed.

Lemma converse_counts sid msgs :
  sid ≠ "" ->
  Forall (fun msg => msg ≠ "") msgs ->
  forall w s m,
    session_at sid (disk w) = Some s ->
    length (messages s) = 2 * m ->
    message_count sid (disk (converse E sid msgs w)) = 2 * (m + length msgs) /\
    evaluate_calls (converse E sid msgs w)
    = evaluate_calls w + ((m + length msgs) / 5 - m / 5).
Proof.
  intros Hsid Hmsgs. induction Hmsgs as [|msg rest Hmsg _ IH]; intros w s m Hs Hlen.
  - simpl. unfold message_count. rewrite Hs, Nat.add_0_r. lia.
  - change (converse E sid (msg :: rest) w)
      with (converse E sid rest
              (snd (ChatMessageRoute.POST E
                      (JsonBody {| sessionId := Some sid; message := Some msg |})
                      w))).
    destruct (POST_exchange sid msg w s Hsid Hmsg Hs) as [(s' & Hs' & Hlen') Hc].
    destruct (IH _ s' (S m) Hs') as [Hcount Hcalls]; [lia|].
    rewrite Hcount, Hcalls, Hc. simpl length.
    replace (length (messages s) + 2) with (2 * S m) by lia.
    rewrite due_even. split; [lia|].
    pose proof (Nat.Div0.div_le_mono m (S m) 5).
    pose proof (Nat.Div0.div_le_mono (S m) (S m + length rest) 5).
    replace (m + S (length rest)) with (S m + length rest) by lia. lia.
Qed.

End Conversation.

(** X20. With a provider that always answers, a session that starts empty
    and receives [k] non-empty messages one after the other holds [2 * k]
    messages afterwards, and [evaluateMentalHealth] has been called
    [k / 5] times (rounded down): the evaluation comes with every fifth
    exchange, when the count reaches 10, 20, and so on. *)
Theorem conversation_counts :
  forall (E : Env) (sid : string) (msgs : list string) (w : World)
         (s : ChatSession),
    (forall n prompt, exists text, generateContent E n prompt = inr text) ->
    sid ≠ "" ->
    Forall (fun msg => msg ≠ "") msgs ->
    session_at sid (disk w) = Some s ->
    messages s = [] ->
    message_count sid (disk (converse E sid msgs w)) = 2 * length msgs /\
    evaluate_calls (converse E sid msgs w)
    = evaluate_calls w + length msgs / 5.
Proof.
  intros E sid msgs w s Hprov Hsid Hmsgs Hs Hempty.
  destruct (converse_counts E Hprov sid msgs Hsid Hmsgs w s 0 Hs) as [H1 H2].
  { by rewrite Hempty. }
  simpl in H1, H2. rewrite Nat.sub_0_r in H2. done.
Qed.

Lemma conversation_counts_witness :
  message_count "bob"
    (disk (converse steadyEnv "bob" ["a"; "b"; "c"; "d"; "e"] pair_world)) = 10 /\
  evaluate_calls (converse steadyEnv "bob" ["a"; "b"; "c"; "d"; "e"] pair_world)
  = evaluate_calls pair_world + 1.
Proof.
  apply (conversation_counts steadyEnv "bob" ["a"; "b"; "c"; "d"; "e"]
           pair_world bob).
  - intros n prompt. by exists "I hear you. Tell me more.".
  - discriminate.
  - repeat constructor; discriminate.
  - reflexivity.
  - reflexivity.
Defined.

(** ** Appending and evaluating commute *)

(** X21. On a session that loads, [updateEvaluation] followed by
    [addMessage] leaves the same folder as [addMessage] followed by
    [updateEvaluation]: the record holds the new message, the refreshed
    [updatedAt] and the given evaluation.  In particular appending a message
    never drops a stored evaluation. *)
Theorem addMessage_updateEvaluation_commute :
  forall (E : Env) (sid : string) (r : Role) (c : string)
         (ev : option StoredEvaluation) (w : World) (s : ChatSession),
    session_at sid (disk w) = Some s ->
    let both :=
      {| id := id s;
         messages := messages s
                       ++ [ {| role := r; content := c;
                               timestamp := Date_now E (tick w) |} ];
         evaluation := ev;
         createdAt := createdAt s;
         updatedAt := Date_now E (S (tick w)) |} in
    snd (Storage.addMessage E sid r c (snd (Storage.updateEvaluation sid ev w)))
    = snd (Storage.updateEvaluation sid ev (snd (Storage.addMessage E sid r c w))) /\
    session_at sid
      (disk (snd (Storage.addMessage E sid r c
                    (snd (Storage.updateEvaluation sid ev w)))))
    = Some both /\
    (forall s', session_at sid (disk (snd (Storage.addMessage E sid r c w))) = Some s' ->
                evaluation s' = evaluation s).
Proof.
  intros E sid r c ev w s Hs both. subst both.
  repeat (rewrite ?addMessage_run, ?updateEvaluation_run, ?Hs,
            ?session_at_write_same; simpl).
  split; [|split].
  - unfold with_disk. simpl. f_equal.
    destruct (disk w); simpl; by rewrite ?insert_insert_eq.
  - reflexivity.
  - by intros s' [= <-].
Qed.

Lemma addMessage_updateEvaluation_commute_witness :
  snd (Storage.addMessage steadyEnv "anna" user "hello"
         (snd (Storage.updateEvaluation "anna" None anna_world)))
  = snd (Storage.updateEvaluation "anna" None
           (snd (Storage.addMessage steadyEnv "anna" user "hello" anna_world))).
Proof.
  apply (addMessage_updateEvaluation_commute steadyEnv "anna" user "hello" None
           anna_world anna eq_refl).
Defined.
